(** * ESP32-C5 auto flasher: a model of [c5_flasher.py] and [_c5_flasher.py]

    The repository holds two stand-alone scripts with the same pipeline:
    wait for a new serial port, resolve the firmware images of a directory,
    ask the operator, hand an argument list to [esptool.main].  They differ
    in the directory they scan, in one message and in the argument list.

    The scripts only talk to the outside world, so the model makes that
    world explicit: an [env] record holds what every external call of one
    run answers (the port enumerations, the directory listing, the line the
    operator types, what esptool does), and [main] maps an [env] to the
    events the run produces and the way it ends. *)

From Stdlib Require Import Ascii String QArith.
From stdpp Require Import base gmap sets list strings.

Local Open Scope string_scope.
Local Open Scope list_scope.

(** ** The two scripts *)

Inductive script :=
  | c5_flasher     (* src/c5_flasher.py: images in ./bins, bootloader at 0x2000 *)
  | _c5_flasher.   (* src/_c5_flasher.py: images beside the script, bootloader at 0x0 *)

(** ** Paths and the scanned directory *)

(** [posixpath.join] for two components. *)
Definition path_join (a p : string) : string :=
  if String.prefix "/" p then p
  else if bool_decide (a = "") || bool_decide (String.substring (String.length a - 1) 1 a = "/")
       then a +:+ p
       else a +:+ "/" +:+ p.

(** One entry of a directory listing.  [is_file] is what [os.path.isfile]
    answers for it and [size] what [os.path.getsize] answers. *)
Record entry := Entry {
  name : string;
  is_file : bool;
  size : N
}.

(** A directory: its path and its entries in the order [os.scandir] yields
    them (the order of [glob.glob]'s result). *)
Record directory := Directory {
  dir_path : string;
  listing : list entry
}.

Definition entry_path (d : directory) (e : entry) : string :=
  path_join (dir_path d) (name e).

(** [glob.has_magic]: the text holds one of the wildcard characters of
    [glob], a star, a question mark or an opening bracket. *)
Fixpoint has_magic (s : string) : bool :=
  match s with
  | EmptyString => false
  | String c s' =>
      Ascii.eqb c "*" || Ascii.eqb c "?" || Ascii.eqb c "[" || has_magic s'
  end.

(** [os.path.lexists] of a name of the directory, and
    [glob.glob(os.path.join(dir, name))] where neither the directory's
    path nor [name] holds a wildcard ([has_magic]): the path itself when
    something of that name exists, whatever it is.  With a wildcard in
    either, [glob] matches a pattern against other directories or other
    names; what it finds then is not described here: the theorems that
    tie a look-up to the entries of the directory assume [has_magic] false
    of the directory's path and of the names looked up. *)
Definition lexists (d : directory) (n : string) : bool :=
  existsb (fun e => String.eqb (name e) n) (listing d).

Definition glob_name (d : directory) (n : string) : list string :=
  if lexists d n then [path_join (dir_path d) n] else [].

(** [s.endswith(suffix)] *)
Definition endswith (s suffix : string) : bool :=
  let n := String.length s in
  let k := String.length suffix in
  (k <=? n)%nat && String.eqb (String.substring (n - k) k s) suffix.

(** [fnmatch] of a file name against [*.bin] as [glob] applies it: the name
    ends in [.bin], and a name starting with a dot is hidden from a pattern
    that does not start with one. *)
Definition matches_star_bin (n : string) : bool :=
  negb (String.prefix "." n) && endswith n ".bin".

(** [glob.glob(os.path.join(dir, "*.bin"))] for a directory whose path holds
    no wildcard ([has_magic]): the entries of that directory whose names
    match.  (With a wildcard in the path [glob] lists the directories the
    path matches as a pattern.) *)
Definition glob_star_bin (d : directory) : list string :=
  map (entry_path d) (List.filter (fun e => matches_star_bin (name e)) (listing d)).

(** [os.path.isfile(p)] and [os.path.getsize(p)] for a path of the scanned
    directory.  [getsize] raises [OSError] on a missing path; the scripts
    call it only on paths that passed [isfile], and the model answers 0
    elsewhere. *)
Definition lookup_path (d : directory) (p : string) : option entry :=
  find (fun e => String.eqb (entry_path d e) p) (listing d).

Definition isfile (d : directory) (p : string) : bool :=
  match lookup_path d p with
  | Some e => is_file e
  | None => false
  end.

Definition getsize (d : directory) (p : string) : N :=
  match lookup_path d p with
  | Some e => size e
  | None => 0%N
  end.

(** ** [find_file] *)

(** [find_file(name_options, bins_dir)] of c5_flasher.py, lines 43-52, and
    [find_file(name_options)] of _c5_flasher.py, lines 25-30: the first
    name of the list whose glob is not empty wins, [None] when none
    matches. *)
Fixpoint find_file (name_options : list string) (d : directory) : option string :=
  match name_options with
  | [] => None
  | n :: rest =>
      match glob_name d n with
      | f :: _ => Some f
      | [] => find_file rest d
      end
  end.

(** ** Python values used by [main] *)

(** Characters are the code points below 256 (one [ascii] each).
    [str.isspace] there: tab to carriage return, the four separators
    0x1c-0x1f, space, NEL (0x85) and the no-break space (0xa0). *)
Definition isspace (c : ascii) : bool :=
  let n := nat_of_ascii c in
  ((9 <=? n) && (n <=? 13) || (28 <=? n) && (n <=? 32) || (n =? 133) || (n =? 160))%nat.

(** [str.lower] on one code point below 256: A-Z and the accented capitals
    0xc0-0xde (0xd7, the multiplication sign, apart) move up by 32. *)
Definition lower_char (c : ascii) : ascii :=
  let n := nat_of_ascii c in
  if ((65 <=? n) && (n <=? 90) || (192 <=? n) && (n <=? 222) && negb (n =? 215))%nat
  then ascii_of_nat (n + 32)
  else c.

Fixpoint lower (s : string) : string :=
  match s with
  | EmptyString => EmptyString
  | String c s' => String (lower_char c) (lower s')
  end.

Fixpoint lstrip (s : string) : string :=
  match s with
  | EmptyString => EmptyString
  | String c s' => if isspace c then lstrip s' else s
  end.

Fixpoint rstrip (s : string) : string :=
  match s with
  | EmptyString => EmptyString
  | String c s' =>
      match rstrip s' with
      | EmptyString => if isspace c then EmptyString else String c EmptyString
      | r => String c r
      end
  end.

(** [str.strip()] *)
Definition strip (s : string) : string := rstrip (lstrip s).

(** [str.center(width)] with the fill character space, as CPython pads:
    the left margin gets the extra blank when both the margin and the
    width are odd. *)
Definition center (text : string) (width : nat) : string :=
  let marg := width - String.length text in
  let left := Nat.div marg 2 + (if Nat.odd marg && Nat.odd width then 1 else 0) in
  String.concat "" (replicate left " ") +:+ text +:+ String.concat "" (replicate (marg - left) " ").

(** A variable that holds a path or [None]; its truth value in [if x:],
    [x and y] and [x or 'NOT FOUND']. *)
Definition truthy (x : option string) : bool :=
  match x with
  | Some s => negb (String.eqb s "")
  | None => false
  end.

Definition or_NOT_FOUND (x : option string) : string :=
  match x with
  | Some s => if truthy x then s else "NOT FOUND"
  | None => "NOT FOUND"
  end.

(** [max(x :: xs, key=key)]: the running maximum is replaced only by an
    item whose key is strictly greater. *)
Definition py_max {A} (key : A -> N) (x : A) (xs : list A) : A :=
  fold_left (fun best y => if (key best <? key y)%N then y else best) xs x.

(** [set.pop()] removes and returns an arbitrary element.  Which one is the
    run's business: [choice] picks the position among the set's elements.
    (On the empty set Python raises [KeyError]; the scripts call [pop] on
    a set they have just tested non-empty.) *)
Definition set_pop (choice : nat) (s : gset string) : string :=
  let l := elements s in
  nth (choice mod length l) l "".

(** What the call of [esptool.main] raises.  [except Exception] catches
    instances of [Exception]; [SystemExit], which [sys.exit] raises, derives
    from [BaseException] only. *)
Inductive py_exception :=
  | Exception (message : string)   (* any instance of Exception, str(e) = message *)
  | SystemExit (code : Z).         (* sys.exit(code) inside the call *)

Definition isinstance_Exception (e : py_exception) : bool :=
  match e with
  | Exception _ => true
  | SystemExit _ => false
  end.

(** [str(e)]; the text of a [SystemExit] is never asked for. *)
Definition str (e : py_exception) : string :=
  match e with
  | Exception message => message
  | SystemExit _ => ""
  end.

(** ** Events and endings of a run *)

Inductive event :=
  | Stdout (text : string)         (* print(text) *)
  | ListPorts                      (* serial.tools.list_ports.comports() *)
  | Sleep (seconds : Q)            (* time.sleep(seconds) *)
  | Input (prompt : string)        (* input(prompt) *)
  | Esptool (args : list string).  (* esptool.main(args) *)

Inductive ending :=
  | Returned                       (* main() returns; the interpreter exits with status 0 *)
  | Exited (status : Z)            (* exit(status) *)
  | Uncaught (e : py_exception).   (* an exception leaves main() *)

Record outcome := Outcome {
  events : list event;
  ended : ending
}.

(** The status the process exits with. An uncaught [Exception] prints a
    traceback and exits with status 1. *)
Definition exit_status (o : outcome) : Z :=
  match ended o with
  | Returned => 0
  | Exited n => n
  | Uncaught (SystemExit n) => n
  | Uncaught (Exception _) => 1
  end.

(** ** The world of one run *)

Record env := Env {
  dirname : string;                  (* os.path.dirname(__file__) *)
  scanned : option (list entry);     (* the listing of the scanned directory,
                                        None when it is not a directory *)
  terminal_width : nat;              (* shutil.get_terminal_size((80, 20)).columns *)
  comports : nat -> list string;     (* devices of the k-th port enumeration *)
  pop_choice : nat;                  (* see set_pop *)
  typed : string;                    (* the line input() returns *)
  esptool_main : list string -> option py_exception
                                     (* None: the call returns *)
}.

(** ** colorama's constants *)

Definition ESC : string := String (ascii_of_nat 27) EmptyString.
Definition NL : string := String (ascii_of_nat 10) EmptyString.
Definition Fore_RED : string := ESC +:+ "[31m".
Definition Fore_GREEN : string := ESC +:+ "[32m".
Definition Fore_YELLOW : string := ESC +:+ "[33m".
Definition Fore_MAGENTA : string := ESC +:+ "[35m".
Definition Fore_CYAN : string := ESC +:+ "[36m".
Definition Style_RESET_ALL : string := ESC +:+ "[0m".

(** ** Waiting for the device *)

(** The [while True] loop of c5_flasher.py, lines 81-87, and of
    [find_new_serial_port] in _c5_flasher.py, lines 18-23.  [k] numbers the
    next port enumeration; [fuel] bounds the iterations the model follows,
    and [None] says the loop is still waiting after that many. *)
Fixpoint poll_loop (fuel : nat) (ports : nat -> list string) (choice : nat)
    (existing_ports : gset string) (k : nat) : option (string * list event) :=
  match fuel with
  | O => None
  | S fuel' =>
      let current_ports : gset string := list_to_set (ports k) in
      let new_ports := current_ports ∖ existing_ports in
      if bool_decide (new_ports ≠ ∅)
      then Some (set_pop choice new_ports, [ListPorts])
      else
        match poll_loop fuel' ports choice existing_ports (S k) with
        | Some (port, ev) => Some (port, ListPorts :: Sleep (1 # 2) :: ev)
        | None => None
        end
  end.

Definition waiting_message : string :=
  Fore_YELLOW +:+ "Waiting for ESP32-C5 device to be connected..." +:+ Style_RESET_ALL.

(** [find_new_serial_port(existing_ports)], _c5_flasher.py lines 16-23;
    c5_flasher.py has the same statements inline (lines 80-87). *)
Definition find_new_serial_port (fuel : nat) (ports : nat -> list string) (choice : nat)
    (existing_ports : gset string) (k : nat) : option (string * list event) :=
  match poll_loop fuel ports choice existing_ports k with
  | Some (port, ev) => Some (port, Stdout waiting_message :: ev)
  | None => None
  end.

(** ** Resolving the firmware images *)

(** The directory a script scans: [os.path.join(dirname, 'bins')] for
    c5_flasher.py (line 59), the script's own directory for _c5_flasher.py
    (lines 27 and 47).  A glob over something that is no directory finds
    nothing. *)
Definition bins_dir (v : script) (e : env) : directory :=
  Directory
    (match v with
     | c5_flasher => path_join (dirname e) "bins"
     | _c5_flasher => dirname e
     end)
    (default [] (scanned e)).

(** c5_flasher.py lines 92-96, _c5_flasher.py lines 42-44. *)
Definition bootloader (d : directory) : option string :=
  find_file ["bootloader.bin"] d.

Definition partitions (d : directory) : option string :=
  find_file ["partition-table.bin"; "partitions.bin"] d.

Definition ota_data (d : directory) : option string :=
  find_file ["ota_data_initial.bin"] d.

(** c5_flasher.py lines 100-102, _c5_flasher.py lines 47-49. *)
Definition all_bins (d : directory) : list string := glob_star_bin d.

Definition exclude (d : directory) : gset (option string) :=
  {[ bootloader d; partitions d; ota_data d ]}.

Definition firmware_bins (d : directory) : list string :=
  List.filter (fun f => negb (bool_decide (Some f ∈ exclude d)) && isfile d f) (all_bins d).

(** [app_bin]: c5_flasher.py lines 103-106, _c5_flasher.py lines 50-53.
    [None] stands for the branch that reports no application image. *)
Definition app_bin (d : directory) : option string :=
  match firmware_bins d with
  | [] => None
  | f :: fs => Some (py_max (getsize d) f fs)
  end.

(** ** The argument list of esptool *)

(** c5_flasher.py lines 123-135. *)
Definition esptool_args_c5_flasher (serial_port bootloader partitions : string)
    (ota_data : option string) (app_bin : string) : list string :=
  [ "--chip"; "esp32c5";
    "--port"; serial_port;
    "--baud"; "921600";
    "--before"; "default_reset";
    "--after"; "hard_reset";
    "write_flash"; "-z";
    "0x2000"; bootloader;
    "0x8000"; partitions ]
  ++ match ota_data with
     | Some o => if truthy ota_data then ["0xd000"; o] else []
     | None => []
     end
  ++ ["0x10000"; app_bin].

(** _c5_flasher.py lines 69-84. *)
Definition esptool_args__c5_flasher (serial_port bootloader partitions : string)
    (ota_data : option string) (app_bin : string) : list string :=
  [ "--chip"; "esp32c5";
    "--port"; serial_port;
    "--baud"; "921600";
    "--before"; "default_reset";
    "--after"; "hard_reset";
    "--flash_mode"; "qio";
    "--flash_freq"; "80m";
    "--flash_size"; "4MB";
    "write_flash"; "-z";
    "0x0"; bootloader;
    "0x8000"; partitions ]
  ++ match ota_data with
     | Some o => if truthy ota_data then ["0xd000"; o] else []
     | None => []
     end
  ++ ["0x10000"; app_bin].

Definition esptool_args (v : script) :=
  match v with
  | c5_flasher => esptool_args_c5_flasher
  | _c5_flasher => esptool_args__c5_flasher
  end.

(** ** Messages *)

Definition bins_not_found_message (bins_dir : string) : string :=
  Fore_RED +:+ "Bins directory not found: " +:+ bins_dir +:+ NL
  +:+ "Please create a 'bins' folder with your .bin files." +:+ Style_RESET_ALL.

Definition splash_lines : list string :=
  [ "--  ESP32 C5 Flasher --";
    "By AWOK";
    "Inspired from LordSkeletonMans ESP32 FZEasyFlasher";
    "Shout out to JCMK for the inspiration on setting up the C5";
    "" ].

Definition splash (terminal_width : nat) : string :=
  Fore_MAGENTA +:+ NL
  +:+ String.concat NL (map (fun line => center line terminal_width) splash_lines)
  +:+ Style_RESET_ALL.

Definition detected_message (serial_port : string) : string :=
  Fore_GREEN +:+ "Detected ESP32-C5 on port: " +:+ serial_port +:+ Style_RESET_ALL.

Definition no_app_message (v : script) : string :=
  match v with
  | c5_flasher =>
      Fore_RED +:+ "No application firmware .bin file found in the 'bins' folder!"
      +:+ Style_RESET_ALL
  | _c5_flasher =>
      Fore_RED +:+ "No application firmware .bin file found in the folder!"
      +:+ Style_RESET_ALL
  end.

(** The four [print]s of the summary, c5_flasher.py lines 109-112. *)
Definition summary (bootloader partitions ota_data : option string) (app_bin : string)
    : list event :=
  [ Stdout (Fore_CYAN +:+ NL +:+ "Bootloader:   " +:+ or_NOT_FOUND bootloader);
    Stdout ("Partitions:   " +:+ or_NOT_FOUND partitions);
    Stdout ("OTA Data:     " +:+ or_NOT_FOUND ota_data);
    Stdout ("App (main):   " +:+ app_bin +:+ NL +:+ Style_RESET_ALL) ].

Definition missing_message : string :=
  Fore_RED
  +:+ "Missing bootloader or partition table. Both are required for a complete flash!"
  +:+ Style_RESET_ALL.

Definition confirm_prompt : string :=
  Fore_YELLOW +:+ "Ready to flash these files to ESP32-C5? (y/N): " +:+ Style_RESET_ALL.

Definition flashing_message : string :=
  Fore_YELLOW +:+ "Flashing ESP32-C5 with bootloader, partition table, and application..."
  +:+ Style_RESET_ALL.

Definition complete_message : string :=
  Fore_GREEN +:+ "Flashing complete!" +:+ Style_RESET_ALL.

(** [f"Flashing failed: {e}"] for an exception [e] whose text is
    [message]. *)
Definition failed_message (message : string) : string :=
  Fore_RED +:+ "Flashing failed: " +:+ message +:+ Style_RESET_ALL.

(** ** [main] *)

(** The [try] around [esptool.main], c5_flasher.py lines 138-143 and
    _c5_flasher.py lines 86-91: [except Exception as e] handles what is an
    instance of [Exception] and lets everything else pass. *)
Definition flash (e : env) (esptool_args : list string) : outcome :=
  match esptool_main e esptool_args with
  | None =>
      Outcome [Stdout flashing_message; Esptool esptool_args; Stdout complete_message]
              Returned
  | Some exc =>
      if isinstance_Exception exc
      then Outcome [Stdout flashing_message; Esptool esptool_args;
                    Stdout (failed_message (str exc))]
                   Returned
      else Outcome [Stdout flashing_message; Esptool esptool_args] (Uncaught exc)
  end.

(** The rest of [main] once the port is known: c5_flasher.py lines 88-143,
    _c5_flasher.py lines 39-91. *)
Definition after_detection (v : script) (e : env) (serial_port : string) : outcome :=
  let d := bins_dir v e in
  let detected := [Stdout (detected_message serial_port)] in
  match app_bin d with
  | None => Outcome (detected ++ [Stdout (no_app_message v)]) (Exited 1)
  | Some app =>
      let shown := detected ++ summary (bootloader d) (partitions d) (ota_data d) app in
      match bootloader d, partitions d with
      | Some b, Some p =>
          if truthy (bootloader d) && truthy (partitions d) then
            let confirm := typed e in
            if negb (String.eqb (lower (strip confirm)) "y")
            then Outcome (shown ++ [Input confirm_prompt; Stdout "Aborting."]) (Exited 0)
            else
              let o := flash e (esptool_args v serial_port b p (ota_data d) app) in
              Outcome (shown ++ Input confirm_prompt :: events o) (ended o)
          else Outcome (shown ++ [Stdout missing_message]) (Exited 1)
      | _, _ => Outcome (shown ++ [Stdout missing_message]) (Exited 1)
      end
  end.

(** What precedes the port detection: the directory check and the splash
    screen of c5_flasher.py (lines 59-76); _c5_flasher.py has neither.
    [inl] is a run that ends there. *)
Definition startup (v : script) (e : env) : outcome + list event :=
  match v with
  | c5_flasher =>
      match scanned e with
      | None =>
          inl (Outcome [Stdout (bins_not_found_message (path_join (dirname e) "bins"))]
                       (Exited 1))
      | Some _ => inr [Stdout (splash (terminal_width e))]
      end
  | _c5_flasher => inr []
  end.

(** [main()] of either script, after [parser.parse_args()] has accepted the
    command line.  [None]: the port loop is still waiting after [fuel]
    iterations. *)
Definition main (v : script) (fuel : nat) (e : env) : option outcome :=
  match startup v e with
  | inl o => Some o
  | inr started =>
      let existing_ports : gset string := list_to_set (comports e 0) in
      match find_new_serial_port fuel (comports e) (pop_choice e) existing_ports 1 with
      | None => None
      | Some (serial_port, waited) =>
          let o := after_detection v e serial_port in
          Some (Outcome (started ++ ListPorts :: waited ++ events o) (ended o))
      end
  end.

(** ** Reading a run *)

(** The argument lists [esptool.main] was called with, in order. *)
Definition esptool_calls (evs : list event) : list (list string) :=
  flat_map (fun ev => match ev with Esptool args => [args] | _ => [] end) evs.

(** The texts printed, in order. *)
Definition printed (evs : list event) : list string :=
  flat_map (fun ev => match ev with Stdout text => [text] | _ => [] end) evs.

(** The prompts the operator was shown. *)
Definition prompts (evs : list event) : list string :=
  flat_map (fun ev => match ev with Input prompt => [prompt] | _ => [] end) evs.

(** The durations slept, in order. *)
Definition sleeps (evs : list event) : list Q :=
  flat_map (fun ev => match ev with Sleep s => [s] | _ => [] end) evs.

(** The operator's answer lets the run go on. *)
Definition confirmed (answer : string) : bool :=
  String.eqb (lower (strip answer)) "y".

(** ** The flash plan as the specification words it *)

(** The offset table of the specification's section 4.4: bootloader at the
    script's offset, partition table at 0x8000, OTA data at 0xd000 when an
    OTA image was found, application at 0x10000. *)
Definition spec_bootloader_offset (v : script) : string :=
  match v with
  | c5_flasher => "0x2000"
  | _c5_flasher => "0x0"
  end.

Definition spec_offset_table (v : script) (bootloader partitions : string)
    (ota_data : option string) (app_bin : string) : list (string * string) :=
  [ (spec_bootloader_offset v, bootloader); ("0x8000", partitions) ]
  ++ match ota_data with
     | Some o => [("0xd000", o)]
     | None => []
     end
  ++ [ ("0x10000", app_bin) ].

(** The connection parameters: chip, port, baud rate, reset modes, and the
    flash mode, frequency and size in the script that names them. *)
Definition spec_connection_parameters (v : script) (serial_port : string) : list string :=
  [ "--chip"; "esp32c5"; "--port"; serial_port; "--baud"; "921600";
    "--before"; "default_reset"; "--after"; "hard_reset" ]
  ++ match v with
     | c5_flasher => []
     | _c5_flasher => ["--flash_mode"; "qio"; "--flash_freq"; "80m"; "--flash_size"; "4MB"]
     end.

Definition spec_flash_arguments (v : script) (serial_port bootloader partitions : string)
    (ota_data : option string) (app_bin : string) : list string :=
  spec_connection_parameters v serial_port
  ++ ["write_flash"; "-z"]
  ++ flat_map (fun '(offset, file) => [offset; file])
       (spec_offset_table v bootloader partitions ota_data app_bin).

(** What a run has printed when it reaches the check of the required
    images: the detected port and the summary. *)
Definition shown (v : script) (e : env) (serial_port app : string) : list event :=
  let d := bins_dir v e in
  Stdout (detected_message serial_port)
  :: summary (bootloader d) (partitions d) (ota_data d) app.

(** The ports of the [k]-th enumeration that the baseline does not hold:
    [new_ports] of the loop's iteration that makes that enumeration. *)
Definition new_ports_at (ports : nat -> list string) (existing_ports : gset string)
    (k : nat) : gset string :=
  list_to_set (ports k) ∖ existing_ports.

(** The events of [n] iterations that found no new port. *)
Definition idle_iterations (n : nat) : list event :=
  concat (replicate n [ListPorts; Sleep (1 # 2)]).

(** What c5_flasher.py prints before it looks for ports. *)
Definition startup_events (v : script) (e : env) : list event :=
  match v with
  | c5_flasher => [Stdout (splash (terminal_width e))]
  | _c5_flasher => []
  end.

(** A string of whitespace only. *)
Fixpoint all_space (s : string) : bool :=
  match s with
  | EmptyString => true
  | String c s' => isspace c && all_space s'
  end.

(** ** Sample runs *)

(** One port at the start and in the first poll, a second one from the
    second poll on. *)
Definition sample_ports (k : nat) : list string :=
  match k with
  | 0 | 1 => ["/dev/ttyS0"]
  | _ => ["/dev/ttyS0"; "/dev/ttyACM0"]
  end.

Definition sample_env (files : list entry) (answer : string)
    (result : option py_exception) : env :=
  Env "/home/op/flasher" (Some files) 80 sample_ports 0 answer (fun _ => result).

(** The scenario of the specification: a bootloader of 1 KB, a partition
    table of 2 KB under its second name, an application of 500 KB. *)
Definition scenario_files : list entry :=
  [ Entry "bootloader.bin" true 1024;
    Entry "partitions.bin" true 2048;
    Entry "app_v3.bin" true 512000 ].

(** A directory with a partition table and nothing else. *)
Definition partition_table_only : list entry :=
  [ Entry "partition-table.bin" true 3072 ].

(** A directory with an application image and a partition table, but no
    bootloader. *)
Definition no_bootloader_files : list entry :=
  [ Entry "partitions.bin" true 2048;
    Entry "app_v3.bin" true 512000 ].



(** The scenario's files as another enumeration gives them. *)
Definition scenario_files_reordered : list entry :=
  [ Entry "app_v3.bin" true 512000;
    Entry "partitions.bin" true 2048;
    Entry "bootloader.bin" true 1024 ].



(** A partition table under both of its names, next to a small
    application. *)
Definition both_partition_names : list entry :=
  [ Entry "bootloader.bin" true 20000;
    Entry "partitions.bin" true 4096;
    Entry "partition-table.bin" true 3072;
    Entry "blink.bin" true 2048 ].



(** ** Well-formed listings *)

(** A file name is not empty and holds no slash; the names of one
    directory are distinct. *)
Fixpoint has_slash (s : string) : bool :=
  match s with
  | EmptyString => false
  | String c s' => Ascii.eqb c "/" || has_slash s'
  end.

Definition valid_name (n : string) : bool :=
  negb (String.eqb n "") && negb (has_slash n).

Definition valid_listing (l : list entry) : Prop :=
  NoDup (map name l) /\ Forall (fun e => valid_name (name e) = true) l.

#[global] Instance entry_eq_dec : EqDecision entry.
Proof. solve_decision. Defined.

#[global] Instance valid_listing_dec (l : list entry) : Decision (valid_listing l).
Proof. unfold valid_listing. apply _. Defined.

(** ** The requirement installer of c5_flasher.py *)

(** c5_flasher.py, lines 21-25. *)
Definition REQUIRED_PACKAGES : list string := ["pyserial"; "esptool"; "colorama"].

(** What the interpreter's surroundings answer: the path of the
    interpreter, whether the finders find a module (and the packages above
    it) once the given subprocess calls have been made, a module that is
    found being taken to load without an error, and the exit status of a
    subprocess call made after them. *)
Record host := Host {
  sys_executable : string;
  importable : list (list string) -> string -> bool;
  check_call_status : list (list string) -> list string -> Z
}.

(** What [sys.modules] holds under a name: a module, or [None], which
    makes every import of the name fail at once. *)
Inductive module_entry := Module | NoModule.

(** The interpreter's state that the installer reads and changes:
    [sys.modules] and the subprocess calls made so far. *)
Record interpreter := Interpreter {
  sys_modules : gmap string module_entry;
  calls : list (list string)
}.

Inductive setup_event :=
  | Announced (text : string)         (* print(text) *)
  | CheckCall (argv : list string).   (* subprocess.check_call(argv) *)

Inductive setup_result :=
  | Ready (st : interpreter)
  | CalledProcessError (argv : list string) (status : Z).



(** [__import__(m)] for a top-level name [m]: a module of [sys.modules] is
    returned as it is, an entry [None] raises [ImportError], and a name
    that [sys.modules] does not hold has to be found: [ImportError] when
    it is not.  For a dotted name this is what happens as long as
    [sys.modules] holds neither the name nor a package above it, which is
    how the imports at the head of the scripts find it. *)
Definition can_import (h : host) (st : interpreter) (m : string) : bool :=
  match sys_modules st !! m with
  | Some Module => true
  | Some NoModule => false
  | None => importable h (calls st) m
  end.

(** The module [ensure_package] tries for a package, line 30. *)
Definition import_name (pkg : string) : string :=
  if String.eqb pkg "gitpython" then "git" else pkg.

Definition installing_message (pkg : string) : string :=
  "Installing missing package: " +:+ pkg.

Definition pip_argv (h : host) (pkg : string) : list string :=
  [sys_executable h; "-m"; "pip"; "install"; "--upgrade"; pkg].

(** [ensure_package(pkg)], c5_flasher.py lines 27-33.  [check_call] raises
    [CalledProcessError] on a status other than 0, and nothing catches
    it. *)
Definition ensure_package (h : host) (st : interpreter) (pkg : string)
    : list setup_event * setup_result :=
  if can_import h st (import_name pkg)
  then ([], Ready (Interpreter (<[import_name pkg := Module]> (sys_modules st))
                                (calls st)))
  else
    let argv := pip_argv h pkg in
    let status := check_call_status h (calls st) argv in
    ([Announced (installing_message pkg); CheckCall argv],
     if Z.eqb status 0
     then Ready (Interpreter (sys_modules st) (calls st ++ [argv]))
     else CalledProcessError argv status).

(** The [for] loop of [ensure_requirements], lines 35-38, over any list of
    packages. *)
Fixpoint ensure_packages (h : host) (st : interpreter) (pkgs : list string)
    : list setup_event * setup_result :=
  match pkgs with
  | [] => ([], Ready st)
  | pkg :: rest =>
      match ensure_package h st pkg with
      | (ev, Ready st') =>
          let '(ev', r) := ensure_packages h st' rest in (ev ++ ev', r)
      | (ev, CalledProcessError argv status) => (ev, CalledProcessError argv status)
      end
  end.

Definition ensure_requirements (h : host) (st : interpreter)
    : list setup_event * setup_result :=
  ensure_packages h st REQUIRED_PACKAGES.

(** ** A script from its first line *)

(** The third-party [import] statements at the head of a script, in order,
    each with the keys it adds to [sys.modules]: c5_flasher.py lines 14-16,
    _c5_flasher.py lines 7-13.  The modules of the standard library are
    taken to be there. *)
Definition imports (v : script) : list (string * list string) :=
  match v with
  | c5_flasher =>
      [ ("serial.tools.list_ports", ["serial"; "serial.tools"; "serial.tools.list_ports"]);
        ("esptool", ["esptool"]);
        ("colorama", ["colorama"]) ]
  | _c5_flasher =>
      [ ("serial.tools.list_ports", ["serial"; "serial.tools"; "serial.tools.list_ports"]);
        ("requests", ["requests"]);
        ("esptool", ["esptool"]);
        ("colorama", ["colorama"]);
        ("git", ["git"]) ]
  end.

(** The [import] statements one after the other: the state they leave, or
    the module whose import raised [ImportError]. *)
Fixpoint run_imports (h : host) (st : interpreter) (stmts : list (string * list string))
    : interpreter + string :=
  match stmts with
  | [] => inl st
  | (m, keys) :: rest =>
      if can_import h st m
      then run_imports h
             (Interpreter (foldr (fun k => <[k := Module]>) (sys_modules st) keys)
                          (calls st))
             rest
      else inr m
  end.

Inductive script_ending :=
  | ImportError (module : string)      (* raised by an import at the head *)
  | SetupFailed (argv : list string) (status : Z)
                                       (* CalledProcessError of the installer *)
  | Main (o : option outcome).         (* main() was called *)

(** A script run as a program, from its first line to [main()]:
    the imports, then for c5_flasher.py the call of [ensure_requirements]
    (line 40), then [main]. *)
Definition run_script (v : script) (h : host) (fuel : nat) (e : env)
    : list setup_event * script_ending :=
  match run_imports h (Interpreter ∅ []) (imports v) with
  | inr m => ([], ImportError m)
  | inl st =>
      match v with
      | c5_flasher =>
          match ensure_requirements h st with
          | (ev, Ready _) => (ev, Main (main v fuel e))
          | (ev, CalledProcessError argv status) => (ev, SetupFailed argv status)
          end
      | _c5_flasher => ([], Main (main v fuel e))
      end
  end.

(** The subprocess calls among the installer's events. *)
Definition check_calls (evs : list setup_event) : list (list string) :=
  flat_map (fun ev => match ev with CheckCall argv => [argv] | _ => [] end) evs.

(** What the installer does for one package it installs. *)
Definition install_events (h : host) (pkg : string) : list setup_event :=
  [Announced (installing_message pkg); CheckCall (pip_argv h pkg)].



(** A host on which [serial], [esptool] and [colorama] are installed and
    [pip] works. *)
Definition sample_host : host :=
  Host "/usr/bin/python3"
       (fun _ m => existsb (String.eqb m)
                     ["serial"; "serial.tools"; "serial.tools.list_ports";
                      "esptool"; "colorama"])
       (fun _ _ => 0%Z).

(** * Properties *)

(** Two texts differ when they differ at one position. *)
Ltac differ_at n :=
  let H := fresh "H" in
  intros H; apply (f_equal (String.get n)) in H; lazy in H; discriminate H.

(** ** Strings and paths *)

Lemma append_cons (c : ascii) (s t : string) : String c s +:+ t = String c (s +:+ t).
Proof. reflexivity. Qed.

Lemma append_eq_empty (a b : string) : a +:+ b = "" -> a = "" /\ b = "".
Proof. destruct a; [auto | rewrite append_cons; discriminate]. Qed.

Lemma append_inj_l (a b c : string) : a +:+ b = a +:+ c -> b = c.
Proof.
  induction a as [|x a IH]; [auto |].
  rewrite !append_cons. intros H. injection H as H. auto.
Qed.

(** A joined path is empty only if the joined name is. *)
Lemma path_join_nonempty (a n : string) : n <> "" -> path_join a n <> "".
Proof.
  intros Hn. unfold path_join.
  destruct (String.prefix "/" n); [assumption |].
  destruct (_ || _).
  - intros H. apply append_eq_empty in H. tauto.
  - intros H. apply append_eq_empty in H as [_ H].
    apply append_eq_empty in H as [H _]. discriminate.
Qed.

Lemma has_slash_prefix (n : string) : has_slash n = false -> String.prefix "/" n = false.
Proof.
  destruct n as [|c n]; [reflexivity |].
  intros H. cbn [has_slash] in H. apply orb_false_iff in H as [H _].
  cbn [String.prefix].
  destruct (ascii_dec "/" c) as [E|E]; [| reflexivity].
  subst c. discriminate.
Qed.

(** Within one directory, distinct file names give distinct paths. *)
Lemma path_join_inj (a n m : string) :
  has_slash n = false -> has_slash m = false -> path_join a n = path_join a m -> n = m.
Proof.
  intros Hn Hm. unfold path_join.
  rewrite (has_slash_prefix n Hn), (has_slash_prefix m Hm).
  destruct (_ || _).
  - apply append_inj_l.
  - intros H. apply append_inj_l in H. now apply append_inj_l in H.
Qed.

(** ** [find_file]: the first name present wins *)

Lemma find_file_find (names : list string) (d : directory) :
  find_file names d = path_join (dir_path d) <$> List.find (lexists d) names.
Proof.
  induction names as [|n names IH]; [reflexivity |].
  cbn [find_file List.find]. unfold glob_name.
  destruct (lexists d n); [reflexivity | exact IH].
Qed.

Lemma find_file_nonempty (names : list string) (d : directory) (f : string) :
  Forall (fun n => n <> "") names -> find_file names d = Some f -> f <> "".
Proof.
  intros Hnames. rewrite find_file_find.
  destruct (List.find (lexists d) names) as [n|] eqn:E; [| discriminate].
  intros [= <-]. apply path_join_nonempty.
  apply find_some in E as [E _].
  rewrite Forall_forall in Hnames. apply Hnames. now apply list_elem_of_In.
Qed.

Lemma bootloader_truthy (d : directory) (b : string) :
  bootloader d = Some b -> truthy (bootloader d) = true.
Proof.
  intros H. rewrite H. cbn [truthy].
  destruct (String.eqb_spec b "") as [->|]; [| reflexivity].
  exfalso. revert H. unfold bootloader. intros H.
  eapply find_file_nonempty; [| exact H | reflexivity].
  repeat constructor; discriminate.
Qed.

Lemma partitions_truthy (d : directory) (p : string) :
  partitions d = Some p -> truthy (partitions d) = true.
Proof.
  intros H. rewrite H. cbn [truthy].
  destruct (String.eqb_spec p "") as [->|]; [| reflexivity].
  exfalso. revert H. unfold partitions. intros H.
  eapply find_file_nonempty; [| exact H | reflexivity].
  repeat constructor; discriminate.
Qed.

Lemma ota_data_truthy (d : directory) (o : string) :
  ota_data d = Some o -> truthy (ota_data d) = true.
Proof.
  intros H. rewrite H. cbn [truthy].
  destruct (String.eqb_spec o "") as [->|]; [| reflexivity].
  exfalso. revert H. unfold ota_data. intros H.
  eapply find_file_nonempty; [| exact H | reflexivity].
  repeat constructor; discriminate.
Qed.

(** ** The four ways [main] goes on after the port is known *)

Lemma after_detection_no_app (v : script) (e : env) (port : string) :
  app_bin (bins_dir v e) = None ->
  after_detection v e port =
    Outcome [Stdout (detected_message port); Stdout (no_app_message v)] (Exited 1).
Proof. intros H. unfold after_detection. now rewrite H. Qed.

Lemma after_detection_missing (v : script) (e : env) (port app : string) :
  app_bin (bins_dir v e) = Some app ->
  bootloader (bins_dir v e) = None \/ partitions (bins_dir v e) = None ->
  after_detection v e port =
    Outcome (shown v e port app ++ [Stdout missing_message]) (Exited 1).
Proof.
  intros Ha H. unfold after_detection, shown. rewrite Ha.
  destruct H as [H|H]; rewrite H; [reflexivity |].
  now destruct (bootloader (bins_dir v e)).
Qed.

Lemma after_detection_decline (v : script) (e : env) (port app b p : string) :
  app_bin (bins_dir v e) = Some app ->
  bootloader (bins_dir v e) = Some b ->
  partitions (bins_dir v e) = Some p ->
  confirmed (typed e) = false ->
  after_detection v e port =
    Outcome (shown v e port app ++ [Input confirm_prompt; Stdout "Aborting."]) (Exited 0).
Proof.
  intros Ha Hb Hp Hc. unfold after_detection, shown.
  rewrite Ha, (bootloader_truthy _ _ Hb), (partitions_truthy _ _ Hp), Hb, Hp.
  cbn [andb]. unfold confirmed in Hc. now rewrite Hc.
Qed.

Lemma after_detection_flash (v : script) (e : env) (port app b p : string) :
  app_bin (bins_dir v e) = Some app ->
  bootloader (bins_dir v e) = Some b ->
  partitions (bins_dir v e) = Some p ->
  confirmed (typed e) = true ->
  let o := flash e (esptool_args v port b p (ota_data (bins_dir v e)) app) in
  after_detection v e port =
    Outcome (shown v e port app ++ Input confirm_prompt :: events o) (ended o).
Proof.
  intros Ha Hb Hp Hc. unfold after_detection, shown.
  rewrite Ha, (bootloader_truthy _ _ Hb), (partitions_truthy _ _ Hp), Hb, Hp.
  cbn [andb]. unfold confirmed in Hc. now rewrite Hc.
Qed.

(** ** The argument list *)

Lemma esptool_calls_app (xs ys : list event) :
  esptool_calls (xs ++ ys) = esptool_calls xs ++ esptool_calls ys.
Proof. apply flat_map_app. Qed.

Lemma esptool_calls_shown (v : script) (e : env) (port app : string) :
  esptool_calls (shown v e port app) = [].
Proof. reflexivity. Qed.

Lemma esptool_calls_flash (e : env) (args : list string) :
  esptool_calls (events (flash e args)) = [args].
Proof.
  unfold flash. destruct (esptool_main e args) as [exc|]; [| reflexivity].
  now destruct (isinstance_Exception exc).
Qed.

(** The list either script builds is the specification's plan, laid out as
    arguments. *)
Lemma esptool_args_spec (v : script) (d : directory) (port b p a : string) :
  esptool_args v port b p (ota_data d) a = spec_flash_arguments v port b p (ota_data d) a.
Proof.
  destruct (ota_data d) as [o|] eqn:E.
  - pose proof (ota_data_truthy d o E) as Ht. rewrite E in Ht.
    destruct v; unfold esptool_args, esptool_args_c5_flasher, esptool_args__c5_flasher;
      rewrite Ht; reflexivity.
  - now destruct v.
Qed.

(** C1. Whatever the directory and the detected port, [esptool.main] is
    called exactly when bootloader, partition table and application image
    were resolved and the operator confirmed, it is called once, and its
    argument list is the connection parameters (chip esp32c5, the detected
    port, 921600 baud, default_reset before, hard_reset after, and the
    flash mode, frequency and size in _c5_flasher.py only), then
    [write_flash -z], then the offset/file pairs in order: bootloader at
    0x2000 (c5_flasher.py) or 0x0 (_c5_flasher.py), partition table at
    0x8000, OTA data at 0xd000 if and only if an OTA image was found,
    application at 0x10000. *)
Theorem C1_flash_arguments (v : script) (e : env) (serial_port : string) :
  esptool_calls (events (after_detection v e serial_port)) =
    match bootloader (bins_dir v e), partitions (bins_dir v e), app_bin (bins_dir v e) with
    | Some b, Some p, Some a =>
        if confirmed (typed e)
        then [spec_flash_arguments v serial_port b p (ota_data (bins_dir v e)) a]
        else []
    | _, _, _ => []
    end.
Proof.
  destruct (app_bin (bins_dir v e)) as [a|] eqn:Ha.
  - destruct (bootloader (bins_dir v e)) as [b|] eqn:Hb.
    + destruct (partitions (bins_dir v e)) as [p|] eqn:Hp.
      * destruct (confirmed (typed e)) eqn:Hc.
        -- rewrite (after_detection_flash v e serial_port a b p Ha Hb Hp Hc).
           cbn [events]. rewrite esptool_calls_app, esptool_calls_shown.
           change (Input confirm_prompt :: ?l) with ([Input confirm_prompt] ++ l).
           rewrite esptool_calls_app, esptool_calls_flash, esptool_args_spec.
           reflexivity.
        -- rewrite (after_detection_decline v e serial_port a b p Ha Hb Hp Hc).
           cbn [events]. rewrite esptool_calls_app, esptool_calls_shown. reflexivity.
      * rewrite (after_detection_missing v e serial_port a Ha (or_intror Hp)).
        cbn [events]. rewrite esptool_calls_app, esptool_calls_shown. reflexivity.
    + rewrite (after_detection_missing v e serial_port a Ha (or_introl Hb)).
      cbn [events]. rewrite esptool_calls_app, esptool_calls_shown.
      now destruct (partitions (bins_dir v e)).
  - rewrite (after_detection_no_app v e serial_port Ha).
    destruct (bootloader (bins_dir v e)); [| reflexivity].
    now destruct (partitions (bins_dir v e)).
Qed.

(** ** The port loop *)

Lemma set_pop_elem_of (choice : nat) (s : gset string) : s ≠ ∅ -> set_pop choice s ∈ s.
Proof.
  intros Hs. unfold set_pop.
  assert (Hl : elements s <> []).
  { intros E. apply Hs. apply leibniz_equiv. now apply elements_empty_inv. }
  apply elem_of_elements.
  destruct (nth_lookup_or_length (elements s) (choice mod length (elements s)) "")
    as [E|E].
  - eapply list_elem_of_lookup_2. exact E.
  - exfalso. destruct (elements s) as [|x l]; [congruence |].
    pose proof (Nat.mod_upper_bound choice (length (x :: l))) as Hb.
    cbn [length] in *. lia.
Qed.

(** Every element of the set is what some run's [pop] returns. *)
Lemma set_pop_any (s : gset string) (x : string) :
  x ∈ s -> exists choice, set_pop choice s = x.
Proof.
  intros Hx. apply elem_of_elements in Hx.
  apply list_elem_of_lookup_1 in Hx as [i Hi].
  exists i. unfold set_pop.
  pose proof (lookup_lt_Some _ _ _ Hi) as Hlt.
  rewrite Nat.mod_small by exact Hlt.
  now apply nth_lookup_Some.
Qed.

Lemma poll_loop_returns (ports : nat -> list string) (choice : nat)
    (existing_ports : gset string) (fuel k : nat) (port : string) (ev : list event) :
  poll_loop fuel ports choice existing_ports k = Some (port, ev) ->
  exists n,
    n < fuel
    /\ (forall i, i < n -> new_ports_at ports existing_ports (k + i) = ∅)
    /\ new_ports_at ports existing_ports (k + n) ≠ ∅
    /\ port = set_pop choice (new_ports_at ports existing_ports (k + n))
    /\ ev = idle_iterations n ++ [ListPorts].
Proof.
  revert k port ev.
  induction fuel as [|fuel IH]; intros k port ev H; [discriminate |].
  cbn [poll_loop] in H. fold (new_ports_at ports existing_ports k) in H.
  destruct (bool_decide (new_ports_at ports existing_ports k ≠ ∅)) eqn:E.
  - apply bool_decide_eq_true in E. injection H as <- <-.
    exists 0. rewrite Nat.add_0_r. repeat split; [lia | intros; lia | exact E].
  - apply bool_decide_eq_false in E.
    destruct (poll_loop fuel ports choice existing_ports (S k)) as [[q ev']|] eqn:E';
      [| discriminate].
    injection H as <- <-.
    destruct (IH _ _ _ E') as (n & Hn & Hidle & Hnew & -> & ->).
    exists (S n). replace (k + S n) with (S k + n) by lia.
    repeat split; [lia | | exact Hnew].
    intros [|i] Hi.
    + rewrite Nat.add_0_r. destruct (decide (new_ports_at ports existing_ports k = ∅));
        [assumption | contradiction].
    + replace (k + S i) with (S k + i) by lia. apply Hidle. lia.
Qed.

Lemma poll_loop_waits (ports : nat -> list string) (choice : nat)
    (existing_ports : gset string) (fuel k : nat) :
  (forall i, i < fuel -> new_ports_at ports existing_ports (k + i) = ∅) ->
  poll_loop fuel ports choice existing_ports k = None.
Proof.
  revert k. induction fuel as [|fuel IH]; intros k H; [reflexivity |].
  cbn [poll_loop]. fold (new_ports_at ports existing_ports k).
  rewrite bool_decide_eq_false_2.
  - rewrite IH; [reflexivity |].
    intros i Hi. replace (S k + i) with (k + S i) by lia. apply H. lia.
  - intros Hne. apply Hne. specialize (H 0). rewrite Nat.add_0_r in H. apply H. lia.
Qed.

Lemma poll_loop_finds (ports : nat -> list string) (choice : nat)
    (existing_ports : gset string) (n fuel k : nat) :
  (forall i, i < n -> new_ports_at ports existing_ports (k + i) = ∅) ->
  new_ports_at ports existing_ports (k + n) ≠ ∅ ->
  n < fuel ->
  poll_loop fuel ports choice existing_ports k =
    Some (set_pop choice (new_ports_at ports existing_ports (k + n)),
          idle_iterations n ++ [ListPorts]).
Proof.
  revert fuel k. induction n as [|n IH]; intros fuel k Hidle Hnew Hfuel.
  - destruct fuel as [|fuel]; [lia |].
    cbn [poll_loop]. fold (new_ports_at ports existing_ports k).
    rewrite Nat.add_0_r in Hnew |- *.
    now rewrite bool_decide_eq_true_2.
  - destruct fuel as [|fuel]; [lia |].
    cbn [poll_loop]. fold (new_ports_at ports existing_ports k).
    rewrite bool_decide_eq_false_2.
    + rewrite (IH fuel (S k)).
      * replace (S k + n) with (k + S n) by lia. reflexivity.
      * intros i Hi. replace (S k + i) with (k + S i) by lia. apply Hidle. lia.
      * replace (S k + n) with (k + S n) by lia. exact Hnew.
      * lia.
    + intros Hne. apply Hne. specialize (Hidle 0). rewrite Nat.add_0_r in Hidle.
      apply Hidle. lia.
Qed.

Lemma sleeps_idle_iterations (n : nat) :
  sleeps (idle_iterations n ++ [ListPorts]) = replicate n (1 # 2).
Proof.
  unfold sleeps. rewrite flat_map_app. cbn [flat_map]. rewrite app_nil_r.
  induction n as [|n IH]; [reflexivity |].
  unfold idle_iterations in *. cbn [replicate concat flat_map app]. now rewrite IH.
Qed.

Lemma new_ports_at_baseline (ports : nat -> list string) (existing_ports : gset string)
    (k : nat) :
  (forall x, In x (ports k) -> x ∈ existing_ports) ->
  new_ports_at ports existing_ports k = ∅.
Proof.
  intros H. unfold new_ports_at. apply leibniz_equiv. apply elem_of_equiv_empty.
  intros x Hx. apply elem_of_difference in Hx as [Hx Hnot].
  apply Hnot, H. apply list_elem_of_In. now apply elem_of_list_to_set in Hx.
Qed.

(** C7. Whatever the baseline: when the port loop returns, it has made some
    number [n] of iterations whose difference with the baseline was empty,
    each followed by a sleep of 0.5 seconds, and the port it returns is a
    member of the difference between the next enumeration and the baseline,
    so a port that newly appeared and no baseline port.  The loop returns
    in the first iteration whose difference is not empty, and no number of
    iterations bounds the wait: as long as no new port has appeared the
    loop is still polling. *)
Theorem C7_port_watcher (ports : nat -> list string) (choice : nat)
    (existing_ports : gset string) (k : nat) :
  (forall fuel port ev,
     poll_loop fuel ports choice existing_ports k = Some (port, ev) ->
     exists n,
       n < fuel
       /\ port ∈ new_ports_at ports existing_ports (k + n)
       /\ (port ∉ existing_ports)
       /\ (forall i, i < n -> new_ports_at ports existing_ports (k + i) = ∅)
       /\ ev = idle_iterations n ++ [ListPorts]
       /\ sleeps ev = replicate n (1 # 2))
  /\ (forall n fuel,
        (forall i, i < n -> new_ports_at ports existing_ports (k + i) = ∅) ->
        new_ports_at ports existing_ports (k + n) ≠ ∅ ->
        n < fuel ->
        exists port, poll_loop fuel ports choice existing_ports k
                     = Some (port, idle_iterations n ++ [ListPorts]))
  /\ (forall fuel,
        (forall i, i < fuel -> new_ports_at ports existing_ports (k + i) = ∅) ->
        poll_loop fuel ports choice existing_ports k = None)
  /\ (forall fuel,
        poll_loop fuel (fun _ => elements existing_ports) choice existing_ports k = None).
Proof.
  split; [| split; [| split]].
  - intros fuel port ev H.
    destruct (poll_loop_returns _ _ _ _ _ _ _ H) as (n & Hn & Hidle & Hnew & -> & ->).
    exists n. pose proof (set_pop_elem_of choice _ Hnew) as Hin.
    repeat split; try assumption.
    + unfold new_ports_at in Hin. apply elem_of_difference in Hin. tauto.
    + apply sleeps_idle_iterations.
  - intros n fuel Hidle Hnew Hfuel. eexists.
    now apply poll_loop_finds.
  - intros fuel. apply poll_loop_waits.
  - intros fuel. apply poll_loop_waits. intros i _.
    apply new_ports_at_baseline. intros x Hx.
    apply elem_of_elements. now apply list_elem_of_In.
Qed.

(** ** The shape of a whole run *)

(** A run that ends either stopped at the directory check of c5_flasher.py
    or got a port from the loop and went on with [after_detection]. *)
Lemma main_inv (v : script) (fuel : nat) (e : env) (o : outcome) :
  main v fuel e = Some o ->
  (v = c5_flasher /\ scanned e = None
   /\ o = Outcome [Stdout (bins_not_found_message (path_join (dirname e) "bins"))]
                  (Exited 1))
  \/ exists port ev,
       (v = c5_flasher -> scanned e <> None)
       /\ poll_loop fuel (comports e) (pop_choice e) (list_to_set (comports e 0)) 1
          = Some (port, ev)
       /\ events o = startup_events v e ++ ListPorts :: Stdout waiting_message :: ev
                     ++ events (after_detection v e port)
       /\ ended o = ended (after_detection v e port).
Proof.
  unfold main, startup, find_new_serial_port. intros H.
  destruct v.
  - destruct (scanned e) as [l|] eqn:El.
    + right.
      destruct (poll_loop fuel (comports e) (pop_choice e) (list_to_set (comports e 0)) 1)
        as [[port ev]|]; [| discriminate].
      injection H as <-. exists port, ev. repeat split. intros _. discriminate.
    + left. injection H as <-. auto.
  - right.
    destruct (poll_loop fuel (comports e) (pop_choice e) (list_to_set (comports e 0)) 1)
      as [[port ev]|]; [| discriminate].
    injection H as <-. exists port, ev. repeat split. discriminate.
Qed.

(** The loop does return once a port outside the baseline shows up. *)
Lemma poll_loop_ends (ports : nat -> list string) (choice : nat)
    (existing_ports : gset string) (n k : nat) :
  new_ports_at ports existing_ports (k + n) ≠ ∅ ->
  exists port ev, poll_loop (S n) ports choice existing_ports k = Some (port, ev).
Proof.
  revert k. induction n as [|n IH]; intros k Hnew.
  - rewrite Nat.add_0_r in Hnew. cbn [poll_loop].
    fold (new_ports_at ports existing_ports k).
    rewrite bool_decide_eq_true_2 by exact Hnew. eauto.
  - cbn [poll_loop]. fold (new_ports_at ports existing_ports k).
    destruct (bool_decide (new_ports_at ports existing_ports k ≠ ∅)); [eauto |].
    replace (k + S n) with (S k + n) in Hnew by lia.
    destruct (IH (S k) Hnew) as (port & ev & E).
    cbn [poll_loop] in E. fold (new_ports_at ports existing_ports (S k)) in E.
    fold (new_ports_at ports existing_ports (S k)). rewrite E. eauto.
Qed.

(** So a run ends: with fuel for the iterations until then, [main] gives
    its outcome. *)
Lemma main_ends (v : script) (e : env) (n : nat) :
  new_ports_at (comports e) (list_to_set (comports e 0)) (1 + n) ≠ ∅ ->
  exists o, main v (S n) e = Some o.
Proof.
  intros Hnew. unfold main, find_new_serial_port.
  destruct (startup v e) as [o|started]; [eauto |].
  destruct (poll_loop_ends (comports e) (pop_choice e) _ n 1 Hnew) as (port & ev & E).
  rewrite E. eauto.
Qed.

(** ** Python's [max] *)

Lemma py_max_cons {A} (key : A -> N) (best y : A) (rest : list A) :
  py_max key best (y :: rest)
  = py_max key (if (key best <? key y)%N then y else best) rest.
Proof. reflexivity. Qed.

(** [max] returns the first item of greatest key: everything before it has
    a strictly smaller key, nothing after it a greater one. *)
Lemma py_max_running {A} (key : A -> N) (rest pre post : list A) (best : A) :
  Forall (fun y => (key y < key best)%N) pre ->
  Forall (fun y => (key y <= key best)%N) post ->
  exists pre' post',
    (pre ++ best :: post) ++ rest = pre' ++ py_max key best rest :: post'
    /\ Forall (fun y => (key y < key (py_max key best rest))%N) pre'
    /\ Forall (fun y => (key y <= key (py_max key best rest))%N) post'.
Proof.
  revert pre post best.
  induction rest as [|y rest IH]; intros pre post best Hpre Hpost.
  - exists pre, post. rewrite app_nil_r. auto.
  - rewrite py_max_cons.
    destruct (N.ltb_spec (key best) (key y)) as [Hlt|Hge].
    + destruct (IH (pre ++ best :: post) [] y) as (pre' & post' & E & H1 & H2).
      * apply Forall_app. split; [| apply Forall_cons; split].
        -- eapply Forall_impl; [exact Hpre |]. cbn. intros; lia.
        -- exact Hlt.
        -- eapply Forall_impl; [exact Hpost |]. cbn. intros; lia.
      * constructor.
      * exists pre', post'. split; [| auto].
        rewrite <- E. now rewrite <- !app_assoc.
    + destruct (IH pre (post ++ [y]) best) as (pre' & post' & E & H1 & H2).
      * exact Hpre.
      * apply Forall_app. split; [exact Hpost |]. now repeat constructor.
      * exists pre', post'. split; [| auto].
        rewrite <- E. rewrite <- !app_assoc. cbn [app]. now rewrite <- app_assoc.
Qed.

Lemma py_max_first {A} (key : A -> N) (x : A) (xs : list A) :
  exists pre post,
    x :: xs = pre ++ py_max key x xs :: post
    /\ Forall (fun y => (key y < key (py_max key x xs))%N) pre
    /\ Forall (fun y => (key y <= key (py_max key x xs))%N) post.
Proof.
  destruct (py_max_running key xs [] [] x) as (pre & post & E & H1 & H2);
    [constructor | constructor |].
  exists pre, post. auto.
Qed.

Lemma py_max_in {A} (key : A -> N) (x : A) (xs : list A) :
  In (py_max key x xs) (x :: xs).
Proof.
  destruct (py_max_first key x xs) as (pre & post & E & _).
  rewrite E. apply in_or_app. right. now left.
Qed.

Lemma py_max_greatest {A} (key : A -> N) (x : A) (xs : list A) (y : A) :
  In y (x :: xs) -> (key y <= key (py_max key x xs))%N.
Proof.
  destruct (py_max_first key x xs) as (pre & post & E & H1 & H2).
  rewrite E. intros Hy. apply in_app_or in Hy as [Hy|[<-|Hy]].
  - rewrite Forall_forall in H1. apply list_elem_of_In, H1 in Hy. lia.
  - lia.
  - rewrite Forall_forall in H2. now apply list_elem_of_In, H2 in Hy.
Qed.

(** ** Reading the events of a run *)

Lemma printed_app (xs ys : list event) : printed (xs ++ ys) = printed xs ++ printed ys.
Proof. apply flat_map_app. Qed.

Lemma prompts_app (xs ys : list event) : prompts (xs ++ ys) = prompts xs ++ prompts ys.
Proof. apply flat_map_app. Qed.

Lemma idle_iterations_silent (n : nat) :
  printed (idle_iterations n) = []
  /\ esptool_calls (idle_iterations n) = []
  /\ prompts (idle_iterations n) = [].
Proof.
  induction n as [|n (IH1 & IH2 & IH3)]; [auto |].
  unfold idle_iterations in *. cbn [replicate concat].
  rewrite printed_app, esptool_calls_app, prompts_app, IH1, IH2, IH3. auto.
Qed.

(** Up to the detection nothing is flashed and nothing is asked, only the
    splash screen of c5_flasher.py and the waiting message are printed, and
    the port is none of the baseline. *)
Lemma main_after_detection (v : script) (fuel : nat) (e : env) (o : outcome) :
  main v fuel e = Some o ->
  (v = c5_flasher -> scanned e <> None) ->
  exists port pre,
    events o = pre ++ events (after_detection v e port)
    /\ ended o = ended (after_detection v e port)
    /\ esptool_calls pre = []
    /\ prompts pre = []
    /\ (port ∉ (list_to_set (comports e 0) : gset string))
    /\ printed pre = printed (startup_events v e) ++ [waiting_message].
Proof.
  intros H Hdir.
  destruct (main_inv v fuel e o H) as [(-> & Hnone & _)|(port & ev & _ & Hloop & -> & ->)].
  { now destruct Hdir. }
  destruct (poll_loop_returns _ _ _ _ _ _ _ Hloop) as (n & _ & _ & Hnew & Hport & ->).
  destruct (idle_iterations_silent n) as (Hprinted & Hcalls & Hprompts).
  exists port, (startup_events v e ++ ListPorts :: Stdout waiting_message
                :: idle_iterations n ++ [ListPorts]).
  change (ListPorts :: Stdout waiting_message :: idle_iterations n ++ [ListPorts])
    with ([ListPorts; Stdout waiting_message] ++ idle_iterations n ++ [ListPorts]).
  split; [| split; [reflexivity | split; [| split; [| split]]]].
  - rewrite <- ?app_assoc. cbn [app]. rewrite <- ?app_assoc. reflexivity.
  - rewrite !esptool_calls_app, Hcalls. now destruct v.
  - rewrite !prompts_app, Hprompts. now destruct v.
  - subst port. pose proof (set_pop_elem_of (pop_choice e) _ Hnew) as Hin.
    unfold new_ports_at in Hin. apply elem_of_difference in Hin. tauto.
  - rewrite !printed_app, Hprinted. reflexivity.
Qed.

(** ** The application image *)

Lemma elem_of_exclude (d : directory) (f : string) :
  Some f ∈ exclude d <->
  bootloader d = Some f \/ partitions d = Some f \/ ota_data d = Some f.
Proof.
  unfold exclude. rewrite !elem_of_union, !elem_of_singleton.
  intuition congruence.
Qed.

Lemma In_all_bins (d : directory) (f : string) :
  In f (all_bins d) <->
  exists en, In en (listing d) /\ matches_star_bin (name en) = true /\ f = entry_path d en.
Proof.
  unfold all_bins, glob_star_bin. rewrite in_map_iff. split.
  - intros (en & <- & Hen). apply filter_In in Hen as [H1 H2]. eauto.
  - intros (en & H1 & H2 & ->). exists en. split; [reflexivity |].
    apply filter_In. auto.
Qed.

Lemma In_firmware_bins (d : directory) (f : string) :
  In f (firmware_bins d) <->
  In f (all_bins d)
  /\ bootloader d <> Some f /\ partitions d <> Some f /\ ota_data d <> Some f
  /\ isfile d f = true.
Proof.
  unfold firmware_bins. rewrite filter_In, andb_true_iff, negb_true_iff.
  rewrite bool_decide_eq_false, elem_of_exclude. tauto.
Qed.





(** Two files tie for the greatest size: the one listed first is taken. *)
Example tie_first_listed :
  app_bin (Directory "/fw" [Entry "bootloader.bin" true 20000;
                            Entry "partition-table.bin" true 3072;
                            Entry "a.bin" true 900000;
                            Entry "b.bin" true 900000]) = Some "/fw/a.bin"
  /\ app_bin (Directory "/fw" [Entry "b.bin" true 900000;
                               Entry "bootloader.bin" true 20000;
                               Entry "a.bin" true 900000;
                               Entry "partition-table.bin" true 3072]) = Some "/fw/b.bin".
Proof. split; vm_compute; reflexivity. Qed.

(** ** The roles *)





(** The path handed to [glob] holds no wildcard when neither the
    directory's path nor the name does: the look-up is for that one
    path. *)
Lemma has_magic_append (a b : string) :
  has_magic (a +:+ b) = has_magic a || has_magic b.
Proof.
  induction a as [|c a IH]; [reflexivity |].
  rewrite append_cons. cbn [has_magic]. rewrite IH. now rewrite !orb_assoc.
Qed.

Lemma has_magic_path_join (a n : string) :
  has_magic a = false -> has_magic n = false -> has_magic (path_join a n) = false.
Proof.
  intros Ha Hn. unfold path_join.
  destruct (String.prefix "/" n); [exact Hn |].
  destruct (_ || _); rewrite !has_magic_append, Ha, Hn; reflexivity.
Qed.

(** The scanned directory of the sample runs and the four names the
    scripts look up hold no wildcard. *)
Example sample_paths_plain :
  has_magic (dir_path (bins_dir c5_flasher (sample_env scenario_files "y" None))) = false
  /\ Forall (fun n => has_magic n = false)
       ["bootloader.bin"; "partition-table.bin"; "partitions.bin"; "ota_data_initial.bin"]
  /\ has_magic "/home/op/fw[1]" = true.
Proof. repeat split; repeat constructor. Qed.

(** Both names of the partition table present: the first of the list wins
    and the other one is an ordinary candidate for the application. *)
Example partition_table_first_name :
  partitions (Directory "/fw" [Entry "partitions.bin" true 4096;
                               Entry "partition-table.bin" true 3072])
  = Some "/fw/partition-table.bin"
  /\ app_bin (Directory "/fw" [Entry "partitions.bin" true 4096;
                               Entry "partition-table.bin" true 3072])
     = Some "/fw/partitions.bin".
Proof. split; vm_compute; reflexivity. Qed.

(** ** Missing required images *)

Lemma app_bin_needs_directory (v : script) (e : env) (app : string) :
  app_bin (bins_dir v e) = Some app -> scanned e <> None.
Proof.
  intros H Hnone. unfold bins_dir in H. rewrite Hnone in H. discriminate.
Qed.

(** What a run that finds no application image prints is neither a line
    of the summary nor the missing-required-image error. *)
Lemma no_app_run_prints (v : script) (e : env) (port x : string) :
  In x (printed (startup_events v e)
        ++ [waiting_message; detected_message port; no_app_message v]) ->
  x = splash (terminal_width e) \/ x = waiting_message \/ x = detected_message port
  \/ x = no_app_message c5_flasher \/ x = no_app_message _c5_flasher.
Proof.
  intros H. apply in_app_or in H as [H|H].
  - destruct v; [| destruct H]. destruct H as [<-|[]]. auto.
  - destruct H as [<-|[<-|[<-|[]]]]; auto. destruct v; auto.
Qed.

Lemma no_app_run_silent (v : script) (e : env) (port : string) :
  ~ In missing_message
      (printed (startup_events v e)
       ++ [waiting_message; detected_message port; no_app_message v])
  /\ (forall b p ot a line,
        In line (printed (summary b p ot a)) ->
        ~ In line (printed (startup_events v e)
                   ++ [waiting_message; detected_message port; no_app_message v])).
Proof.
  split.
  - intros H. apply no_app_run_prints in H as [H|[H|[H|[H|H]]]]; revert H;
      first [differ_at 3 | differ_at 5].
  - intros b p ot a line Hline H. cbn in Hline.
    apply no_app_run_prints in H as [H|[H|[H|[H|H]]]];
      destruct Hline as [<-|[<-|[<-|[<-|[]]]]]; revert H;
      first [differ_at 3 | differ_at 0].
Qed.

(** C4, as the scripts have it. Whenever the directory holds a candidate
    for the application image and the bootloader or the partition table
    has no matching file, the run prints the summary (with NOT FOUND for
    what is missing), then the missing-required-image error, and exits
    with status 1; the operator is not asked and esptool is not called.
    The check comes after the selection of the application image: when the
    directory holds no candidate, whatever else is missing, the run has
    ended on the no-application-image error with status 1, and neither a
    line of the summary nor the missing-required-image error is
    printed. *)
Theorem C4_missing_required_image (v : script) (fuel : nat) (e : env) (o : outcome) :
  main v fuel e = Some o ->
  (forall app,
     app_bin (bins_dir v e) = Some app ->
     bootloader (bins_dir v e) = None \/ partitions (bins_dir v e) = None ->
     (exists port pre,
        events o = pre ++ Stdout (detected_message port)
                   :: summary (bootloader (bins_dir v e)) (partitions (bins_dir v e))
                        (ota_data (bins_dir v e)) app
                   ++ [Stdout missing_message])
     /\ ended o = Exited 1
     /\ exit_status o = 1%Z
     /\ esptool_calls (events o) = []
     /\ prompts (events o) = [])
  /\ (app_bin (bins_dir v e) = None ->
      (v = c5_flasher -> scanned e <> None) ->
      (exists port,
         printed (events o)
         = printed (startup_events v e)
           ++ [waiting_message; detected_message port; no_app_message v])
      /\ last (events o) = Some (Stdout (no_app_message v))
      /\ ~ In missing_message (printed (events o))
      /\ (forall b p ot a line,
            In line (printed (summary b p ot a)) -> ~ In line (printed (events o)))
      /\ ended o = Exited 1
      /\ exit_status o = 1%Z
      /\ esptool_calls (events o) = []
      /\ prompts (events o) = []).
Proof.
  intros Hmain. split.
  - intros app Happ Hmissing.
    destruct (main_after_detection v fuel e o Hmain
                (fun _ => app_bin_needs_directory v e app Happ))
      as (port & pre & Hev & Hend & Hcalls & Hprompts & _).
    rewrite (after_detection_missing v e port app Happ Hmissing) in Hev, Hend.
    cbn [events ended] in *. unfold exit_status. rewrite Hend.
    split; [exists port, pre; exact Hev |].
    rewrite Hev, esptool_calls_app, prompts_app, Hcalls, Hprompts.
    rewrite esptool_calls_app, prompts_app. auto.
  - intros Hnone Hdir.
    destruct (main_after_detection v fuel e o Hmain Hdir)
      as (port & pre & Hev & Hend & Hcalls & Hprompts & _ & Hprinted).
    rewrite (after_detection_no_app v e port Hnone) in Hev, Hend.
    cbn [events ended] in *.
    assert (Hlines : printed (events o)
                     = printed (startup_events v e)
                       ++ [waiting_message; detected_message port; no_app_message v]).
    { rewrite Hev, printed_app, Hprinted. rewrite <- app_assoc. reflexivity. }
    destruct (no_app_run_silent v e port) as [Hno_missing Hno_summary].
    unfold exit_status. rewrite Hend, Hlines.
    split; [exists port; reflexivity |].
    split.
    { rewrite Hev.
      change [Stdout (detected_message port); Stdout (no_app_message v)]
        with ([Stdout (detected_message port)] ++ [Stdout (no_app_message v)]).
      rewrite app_assoc. apply last_snoc. }
    split; [exact Hno_missing | split; [exact Hno_summary |]].
    rewrite Hev, esptool_calls_app, prompts_app, Hcalls, Hprompts. auto.
Qed.

(** A directory without bootloader: summary, then the error.  A directory
    without a candidate: the no-application-image error and no other. *)
Lemma C4_missing_required_image_witness :
  (exists o,
     main _c5_flasher 2 (sample_env no_bootloader_files "y" None) = Some o
     /\ printed (events o) =
          [ waiting_message;
            detected_message "/dev/ttyACM0";
            Fore_CYAN +:+ NL +:+ "Bootloader:   NOT FOUND";
            "Partitions:   /home/op/flasher/partitions.bin";
            "OTA Data:     NOT FOUND";
            "App (main):   /home/op/flasher/app_v3.bin" +:+ NL +:+ Style_RESET_ALL;
            missing_message ]
     /\ ended o = Exited 1
     /\ esptool_calls (events o) = [])
  /\ (exists o,
        main c5_flasher 2 (sample_env partition_table_only "y" None) = Some o
        /\ last (events o) = Some (Stdout (no_app_message c5_flasher))
        /\ ~ In missing_message (printed (events o))).
Proof.
  split.
  - eexists. split; [vm_compute; reflexivity |].
    destruct (C4_missing_required_image _c5_flasher 2
                (sample_env no_bootloader_files "y" None) _ eq_refl)
      as [Hmissing _].
    destruct (Hmissing "/home/op/flasher/app_v3.bin" eq_refl (or_introl eq_refl))
      as (_ & Hend & _ & Hcalls & _).
    split; [vm_compute; reflexivity | split; [exact Hend | exact Hcalls]].
  - eexists. split; [vm_compute; reflexivity |].
    destruct (C4_missing_required_image c5_flasher 2
                (sample_env partition_table_only "y" None) _ eq_refl)
      as [_ Hnone].
    destruct Hnone as (_ & Hlast & Hquiet & _);
      [reflexivity | intros _; vm_compute; discriminate |].
    split; [exact Hlast | exact Hquiet].
Defined.

(** With a partition table and nothing else there is no bootloader, and yet
    the run ends on the no-application-image error: neither the summary nor
    the missing-required-image error is printed. *)
Lemma C4_counterexample :
  bootloader (bins_dir c5_flasher (sample_env partition_table_only "y" None)) = None
  /\ exists o,
       main c5_flasher 2 (sample_env partition_table_only "y" None) = Some o
       /\ printed (events o) =
            [ splash 80;
              waiting_message;
              detected_message "/dev/ttyACM0";
              no_app_message c5_flasher ]
       /\ ~ In missing_message (printed (events o))
       /\ ended o = Exited 1.
Proof.
  split; [reflexivity |].
  eexists. split; [vm_compute; reflexivity |].
  split; [vm_compute; reflexivity |].
  split; [| reflexivity].
  vm_compute. intros [H|[H|[H|[H|[]]]]]; discriminate H.
Qed.

(** ** The operator's answer *)

Lemma rstrip_empty (s : string) : rstrip s = "" <-> all_space s = true.
Proof.
  induction s as [|c s IH]; [easy |].
  cbn [rstrip all_space]. rewrite andb_true_iff, <- IH.
  destruct (rstrip s); destruct (isspace c); split; intros H;
    try discriminate; try tauto; destruct H; discriminate.
Qed.

Lemma rstrip_single (s : string) (c : ascii) :
  rstrip s = String c "" <->
  exists r, s = String c r /\ isspace c = false /\ all_space r = true.
Proof.
  destruct s as [|x s]; cbn [rstrip].
  - split; [discriminate | intros (r & H & _); discriminate].
  - destruct (rstrip s) as [|y t] eqn:E.
    + apply rstrip_empty in E. destruct (isspace x) eqn:Hx.
      * split; [discriminate |]. intros (r & [= -> ->] & H & _). congruence.
      * split.
        -- intros [= ->]. eauto.
        -- intros (r & [= -> ->] & _). reflexivity.
    + split; [discriminate |].
      intros (r & [= -> ->] & _ & H). apply rstrip_empty in H. congruence.
Qed.

Lemma lstrip_split (s : string) :
  exists l, s = l +:+ lstrip s /\ all_space l = true.
Proof.
  induction s as [|c s (l & IH & Hl)]; [exists ""; auto |].
  cbn [lstrip]. destruct (isspace c) eqn:Hc.
  - exists (String c l). rewrite append_cons, <- IH. cbn [all_space].
    now rewrite Hc, Hl.
  - exists "". auto.
Qed.

Lemma lstrip_app (l : string) (c : ascii) (r : string) :
  all_space l = true -> isspace c = false ->
  lstrip (l +:+ String c r) = String c r.
Proof.
  intros Hl Hc. induction l as [|x l IH].
  - change ("" +:+ String c r) with (String c r). cbn [lstrip]. now rewrite Hc.
  - cbn [all_space] in Hl. apply andb_true_iff in Hl as [Hx Hl].
    rewrite append_cons. cbn [lstrip]. rewrite Hx. auto.
Qed.

Lemma lower_char_y (c : ascii) :
  lower_char c = "y"%char <-> c = "y"%char \/ c = "Y"%char.
Proof.
  split.
  - destruct c as [[] [] [] [] [] [] [] []]; vm_compute; intros H;
      first [discriminate H | now left | now right].
  - intros [->| ->]; reflexivity.
Qed.

Lemma lower_y (s : string) :
  lower s = "y" <-> s = "y" \/ s = "Y".
Proof.
  destruct s as [|c [|c' s]]; cbn [lower].
  - split; [discriminate | intros [H|H]; discriminate].
  - split.
    + intros [= H]. apply lower_char_y in H as [->| ->]; auto.
    + intros [[= ->]|[= ->]]; reflexivity.
  - split; [discriminate | intros [H|H]; discriminate].
Qed.

(** The answers that let the run go on: a [y] or a [Y] with nothing but
    whitespace around it. *)
Lemma confirmed_iff (s : string) :
  lower (strip s) = "y" <->
  exists l c r,
    s = l +:+ String c r
    /\ all_space l = true /\ all_space r = true
    /\ (c = "y"%char \/ c = "Y"%char).
Proof.
  rewrite lower_y. unfold strip. split.
  - intros H.
    assert (Hc : exists c, rstrip (lstrip s) = String c ""
                           /\ (c = "y"%char \/ c = "Y"%char)).
    { destruct H as [H|H]; rewrite H; eauto. }
    destruct Hc as (c & Hc & Hy).
    apply rstrip_single in Hc as (r & Hr & _ & Hsp).
    destruct (lstrip_split s) as (l & Hs & Hl). rewrite Hr in Hs.
    exists l, c, r. auto.
  - intros (l & c & r & -> & Hl & Hr & Hy).
    assert (Hc : isspace c = false) by (destruct Hy as [->| ->]; reflexivity).
    rewrite (lstrip_app l c r Hl Hc).
    assert (E : rstrip (String c r) = String c "").
    { apply rstrip_single. eauto. }
    rewrite E. destruct Hy as [->| ->]; auto.
Qed.

Lemma confirmed_true (s : string) : confirmed s = true <-> lower (strip s) = "y".
Proof. unfold confirmed. apply String.eqb_eq. Qed.

Lemma prompts_flash (e : env) (args : list string) : prompts (events (flash e args)) = [].
Proof.
  unfold flash. destruct (esptool_main e args) as [exc|]; [| reflexivity].
  now destruct (isinstance_Exception exc).
Qed.

Lemma prompts_shown (v : script) (e : env) (port app : string) :
  prompts (shown v e port app) = [].
Proof. reflexivity. Qed.

(** C5. Once the images are resolved, the run goes on to call esptool if
    and only if the operator's answer, stripped of surrounding whitespace
    and lowered, is exactly [y]: the answers that do are a [y] or a [Y]
    with nothing but whitespace around it, so [y], [Y] and [ y ] go on and
    [n], the empty answer and [yes] decline.  On any other answer the run
    prints [Aborting.] and exits with status 0 without calling esptool.
    The operator is asked once. *)
Theorem C5_confirmation (v : script) (fuel : nat) (e : env) (o : outcome)
    (b p app : string) :
  main v fuel e = Some o ->
  bootloader (bins_dir v e) = Some b ->
  partitions (bins_dir v e) = Some p ->
  app_bin (bins_dir v e) = Some app ->
  (esptool_calls (events o) <> [] <-> lower (strip (typed e)) = "y")
  /\ (lower (strip (typed e)) = "y" <->
      exists l c r,
        typed e = l +:+ String c r
        /\ all_space l = true /\ all_space r = true
        /\ (c = "y"%char \/ c = "Y"%char))
  /\ (lower (strip (typed e)) <> "y" ->
      last (events o) = Some (Stdout "Aborting.")
      /\ ended o = Exited 0
      /\ exit_status o = 0%Z
      /\ esptool_calls (events o) = [])
  /\ prompts (events o) = [confirm_prompt]
  /\ (confirmed "y" = true /\ confirmed "Y" = true /\ confirmed " y " = true
      /\ confirmed "n" = false /\ confirmed "" = false /\ confirmed "yes" = false).
Proof.
  intros Hmain Hb Hp Ha.
  destruct (main_after_detection v fuel e o Hmain
              (fun _ => app_bin_needs_directory v e app Ha))
    as (port & pre & Hev & Hend & Hcalls & Hprompts & _).
  split; [| split; [apply confirmed_iff | split; [| split; [| repeat split]]]].
  - rewrite <- confirmed_true.
    pose proof (Hcall := esptool_calls_flash e
                           (esptool_args v port b p (ota_data (bins_dir v e)) app)).
    destruct (confirmed (typed e)) eqn:Hc.
    + rewrite (after_detection_flash v e port app b p Ha Hb Hp Hc) in Hev.
      cbn [events] in Hev.
      change (Input confirm_prompt :: ?l) with ([Input confirm_prompt] ++ l) in Hev.
      rewrite Hev, !esptool_calls_app, Hcalls, esptool_calls_shown, Hcall. easy.
    + rewrite (after_detection_decline v e port app b p Ha Hb Hp Hc) in Hev.
      cbn [events] in Hev.
      rewrite Hev, !esptool_calls_app, Hcalls, esptool_calls_shown. easy.
  - intros Hno. rewrite <- confirmed_true in Hno.
    apply not_true_is_false in Hno.
    rewrite (after_detection_decline v e port app b p Ha Hb Hp Hno) in Hev, Hend.
    cbn [events ended] in *. unfold exit_status. rewrite Hend, Hev.
    rewrite !esptool_calls_app, Hcalls, esptool_calls_shown.
    repeat split.
    change [Input confirm_prompt; Stdout "Aborting."]
      with ([Input confirm_prompt] ++ [Stdout "Aborting."]).
    rewrite !app_assoc. apply last_snoc.
  - destruct (confirmed (typed e)) eqn:Hc.
    + rewrite (after_detection_flash v e port app b p Ha Hb Hp Hc) in Hev.
      cbn [events] in Hev.
      change (Input confirm_prompt :: ?l) with ([Input confirm_prompt] ++ l) in Hev.
      rewrite Hev, !prompts_app, Hprompts, prompts_shown, prompts_flash. reflexivity.
    + rewrite (after_detection_decline v e port app b p Ha Hb Hp Hc) in Hev.
      cbn [events] in Hev.
      rewrite Hev, !prompts_app, Hprompts, prompts_shown. reflexivity.
Qed.

(** The scenario of the specification, answered with a capital Y between
    blanks: esptool is called. *)
Lemma C5_confirmation_witness :
  exists o,
    main c5_flasher 2 (sample_env scenario_files " Y " None) = Some o
    /\ esptool_calls (events o) <> [].
Proof.
  eexists. split; [vm_compute; reflexivity |].
  apply (C5_confirmation c5_flasher 2 (sample_env scenario_files " Y " None) _
           "/home/op/flasher/bins/bootloader.bin"
           "/home/op/flasher/bins/partitions.bin"
           "/home/op/flasher/bins/app_v3.bin" eq_refl eq_refl eq_refl eq_refl).
  reflexivity.
Defined.

(** ** The call of esptool *)

Lemma complete_message_only (v : script) (e : env) (port app : string)
    (message : string) :
  ~ In complete_message
      (printed (startup_events v e) ++ [waiting_message]
       ++ printed (shown v e port app)
       ++ [flashing_message; failed_message message]).
Proof.
  intros H. apply in_app_or in H as [H|H].
  { destruct v; [| destruct H]. destruct H as [H|[]]. revert H. differ_at 3. }
  destruct H as [H|H]; [revert H; differ_at 3 |].
  cbn in H.
  destruct H as [H|[H|[H|[H|[H|[H|[H|[]]]]]]]]; revert H;
    first [differ_at 5 | differ_at 3 | differ_at 0].
Qed.

(** A run that calls esptool: the images were resolved, the operator
    confirmed, and the call is the last thing the run does besides
    reporting on it. *)
Lemma flash_run (v : script) (fuel : nat) (e : env) (o : outcome) (args : list string) :
  main v fuel e = Some o ->
  In args (esptool_calls (events o)) ->
  exists port app pre,
    events o = pre ++ shown v e port app ++ [Input confirm_prompt]
               ++ events (flash e args)
    /\ ended o = ended (flash e args)
    /\ esptool_calls pre = []
    /\ printed pre = printed (startup_events v e) ++ [waiting_message].
Proof.
  intros Hmain Hin.
  destruct (main_inv v fuel e o Hmain) as [(-> & Hnone & ->)|(_ & _ & Hdir & _)].
  { destruct Hin. }
  destruct (main_after_detection v fuel e o Hmain Hdir)
    as (port & pre & Hev & Hend & Hcalls & _ & _ & Hprinted).
  rewrite Hev, esptool_calls_app, Hcalls in Hin. cbn [app] in Hin.
  destruct (app_bin (bins_dir v e)) as [a|] eqn:Ha.
  2: { rewrite (after_detection_no_app v e port Ha) in Hin. destruct Hin. }
  destruct (bootloader (bins_dir v e)) as [b|] eqn:Hb.
  2: { rewrite (after_detection_missing v e port a Ha (or_introl Hb)) in Hin.
       cbn [events] in Hin. rewrite esptool_calls_app, esptool_calls_shown in Hin.
       destruct Hin. }
  destruct (partitions (bins_dir v e)) as [p|] eqn:Hp.
  2: { rewrite (after_detection_missing v e port a Ha (or_intror Hp)) in Hin.
       cbn [events] in Hin. rewrite esptool_calls_app, esptool_calls_shown in Hin.
       destruct Hin. }
  destruct (confirmed (typed e)) eqn:Hc.
  2: { rewrite (after_detection_decline v e port a b p Ha Hb Hp Hc) in Hin.
       cbn [events] in Hin. rewrite esptool_calls_app, esptool_calls_shown in Hin.
       destruct Hin. }
  rewrite (after_detection_flash v e port a b p Ha Hb Hp Hc) in Hin, Hev, Hend.
  cbn [events ended] in Hin, Hev, Hend.
  change (Input confirm_prompt :: ?l) with ([Input confirm_prompt] ++ l) in Hin, Hev.
  rewrite !esptool_calls_app, esptool_calls_shown, esptool_calls_flash in Hin.
  destruct Hin as [<-|[]].
  exists port, a, pre. auto.
Qed.

(** C6, as the scripts have it. A run that calls esptool calls it once.
    When the call raises an instance of [Exception], the exception is
    caught: the last thing the run does is print [Flashing failed:] with
    the exception's text, [main] returns and the exit status is 0.  When
    the call returns, the last thing printed is the success message and
    the exit status is 0.  The success message is printed if and only if
    the call raised nothing.  A [SystemExit] raised inside the call is not
    an instance of [Exception]: it leaves [main] unreported and the
    process exits with its code. *)
Theorem C6_flash_failure_reported (v : script) (fuel : nat) (e : env) (o : outcome)
    (args : list string) :
  main v fuel e = Some o ->
  In args (esptool_calls (events o)) ->
  esptool_calls (events o) = [args]
  /\ (forall message,
        esptool_main e args = Some (Exception message) ->
        last (events o)
          = Some (Stdout (Fore_RED +:+ "Flashing failed: " +:+ message
                          +:+ Style_RESET_ALL))
        /\ ended o = Returned
        /\ exit_status o = 0%Z)
  /\ (esptool_main e args = None ->
        last (events o) = Some (Stdout complete_message)
        /\ ended o = Returned
        /\ exit_status o = 0%Z)
  /\ (In complete_message (printed (events o)) <-> esptool_main e args = None)
  /\ (forall code,
        esptool_main e args = Some (SystemExit code) ->
        last (events o) = Some (Esptool args)
        /\ ended o = Uncaught (SystemExit code)
        /\ exit_status o = code).
Proof.
  intros Hmain Hin.
  destruct (flash_run v fuel e o args Hmain Hin)
    as (port & a & pre & Hev & Hend & Hcalls & Hprinted).
  unfold exit_status. rewrite Hend, Hev. clear Hmain Hin Hev Hend.
  rewrite !esptool_calls_app, Hcalls, esptool_calls_shown, esptool_calls_flash.
  split; [reflexivity |].
  rewrite !printed_app, Hprinted.
  pose proof (complete_message_only v e port a) as Hother.
  unfold flash.
  destruct (esptool_main e args) as [[message|code]|] eqn:Hraise; cbn [isinstance_Exception].
  - split; [| split; [discriminate | split; [| discriminate]]].
    + intros m [= <-]. cbn [events ended]. repeat split.
      rewrite !app_assoc.
      change [Stdout flashing_message; Esptool args;
              Stdout (failed_message (str (Exception message)))]
        with ([Stdout flashing_message; Esptool args]
              ++ [Stdout (failed_message message)]).
      rewrite app_assoc. apply last_snoc.
    + split; [| discriminate]. intros H. exfalso.
      apply (Hother message).
      cbn [events printed flat_map app] in H. rewrite <- !app_assoc in H. exact H.
  - split; [discriminate | split; [discriminate | split]].
    + split; [| discriminate]. intros H. exfalso.
      apply (Hother "").
      cbn [events printed flat_map app] in H. rewrite <- !app_assoc in H.
      apply in_app_or in H as [H|H]; apply in_or_app; [now left | right].
      apply in_app_or in H as [H|H]; apply in_or_app; [now left | right].
      apply in_app_or in H as [H|H]; apply in_or_app; [now left | right].
      destruct H as [H|[]]. now left.
    + intros c [= <-]. cbn [events ended]. repeat split.
      rewrite !app_assoc.
      change [Stdout flashing_message; Esptool args]
        with ([Stdout flashing_message] ++ [Esptool args]).
      rewrite app_assoc. apply last_snoc.
  - split; [discriminate | split; [| split; [| discriminate]]].
    + intros _. cbn [events ended]. repeat split.
      rewrite !app_assoc.
      change [Stdout flashing_message; Esptool args; Stdout complete_message]
        with ([Stdout flashing_message; Esptool args] ++ [Stdout complete_message]).
      rewrite app_assoc. apply last_snoc.
    + split; [reflexivity |]. intros _.
      cbn [events printed flat_map app]. rewrite !app_assoc.
      apply in_or_app. right. right. now left.
Qed.

(** The scenario of the specification with an esptool that fails to
    connect: the failure is reported and the run ends with status 0. *)
Lemma C6_flash_failure_reported_witness :
  exists o,
    main _c5_flasher 2
      (sample_env scenario_files "y" (Some (Exception "Failed to connect"))) = Some o
    /\ last (events o)
       = Some (Stdout (Fore_RED +:+ "Flashing failed: " +:+ "Failed to connect"
                       +:+ Style_RESET_ALL))
    /\ exit_status o = 0%Z.
Proof.
  eexists. split; [vm_compute; reflexivity |].
  destruct (C6_flash_failure_reported _c5_flasher 2
              (sample_env scenario_files "y" (Some (Exception "Failed to connect"))) _
              (spec_flash_arguments _c5_flasher "/dev/ttyACM0"
                 "/home/op/flasher/bootloader.bin" "/home/op/flasher/partitions.bin"
                 None "/home/op/flasher/app_v3.bin")
              eq_refl (or_introl eq_refl))
    as (_ & Hcaught & _).
  destruct (Hcaught "Failed to connect" eq_refl) as (Hlast & _ & Hstatus).
  split; [exact Hlast | exact Hstatus].
Defined.

(** The same scenario with an esptool that leaves through [sys.exit(2)]:
    an exception is raised by the call, yet nothing is caught or reported
    and the process exits with status 2. *)
Lemma C6_counterexample :
  exists o args,
    main _c5_flasher 2 (sample_env scenario_files "y" (Some (SystemExit 2))) = Some o
    /\ esptool_calls (events o) = [args]
    /\ esptool_main (sample_env scenario_files "y" (Some (SystemExit 2))) args
       = Some (SystemExit 2)
    /\ last (events o) = Some (Esptool args)
    /\ ended o = Uncaught (SystemExit 2)
    /\ exit_status o = 2%Z.
Proof.
  eexists. eexists. split; [vm_compute; reflexivity |].
  repeat split.
Qed.

(** ** Two enumerations of one directory *)








Lemma py_max_unique (key : string -> N) (x : string) (xs : list string) (a : string) :
  In a (x :: xs) ->
  (forall y, In y (x :: xs) -> y <> a -> (key y < key a)%N) ->
  py_max key x xs = a.
Proof.
  intros Ha Hless.
  destruct (decide (py_max key x xs = a)) as [E|E]; [exact E | exfalso].
  pose proof (Hless _ (py_max_in key x xs) E) as H1.
  pose proof (py_max_greatest key x xs a Ha) as H2. lia.
Qed.







(** ** The baseline *)

Lemma after_detection_first (v : script) (e : env) (port : string) :
  exists rest, events (after_detection v e port) = Stdout (detected_message port) :: rest.
Proof.
  unfold after_detection.
  destruct (app_bin (bins_dir v e)); [| cbn; eauto].
  destruct (bootloader (bins_dir v e)); [| cbn; eauto].
  destruct (partitions (bins_dir v e)); [| cbn; eauto].
  destruct (truthy _ && truthy _); [| cbn; eauto].
  destruct (negb _); cbn; eauto.
Qed.

(** C10. A port of the baseline is never what the port loop returns, in
    whatever iteration it returns: every iteration takes the difference
    with the baseline it was started with.  So baseline ports that vanish
    and come back do not end the wait: as long as each enumeration shows
    baseline ports only, whichever of them, the loop keeps polling.  In a
    run of either script the baseline is the enumeration made at the
    start, and the port the run reports as detected is none of it. *)
Theorem C10_baseline_port_never_returned (ports : nat -> list string) (choice : nat)
    (existing_ports : gset string) (k : nat) :
  (forall fuel port ev,
     poll_loop fuel ports choice existing_ports k = Some (port, ev) ->
     port ∉ existing_ports)
  /\ (forall fuel,
        (forall i x, i < fuel -> In x (ports (k + i)) -> x ∈ existing_ports) ->
        poll_loop fuel ports choice existing_ports k = None)
  /\ (forall v fuel e o,
        main v fuel e = Some o ->
        (v = c5_flasher -> scanned e <> None) ->
        exists port,
          In (Stdout (detected_message port)) (events o)
          /\ ~ In port (comports e 0)).
Proof.
  split; [| split].
  - intros fuel port ev H.
    destruct (poll_loop_returns _ _ _ _ _ _ _ H) as (n & _ & _ & Hnew & -> & _).
    pose proof (set_pop_elem_of choice _ Hnew) as Hin.
    unfold new_ports_at in Hin. apply elem_of_difference in Hin. tauto.
  - intros fuel H. apply poll_loop_waits. intros i Hi.
    apply new_ports_at_baseline. intros x. now apply H.
  - intros v fuel e o Hmain Hdir.
    destruct (main_after_detection v fuel e o Hmain Hdir)
      as (port & pre & Hev & _ & _ & _ & Hnot & _).
    destruct (after_detection_first v e port) as (rest & Hfirst).
    exists port. split.
    + rewrite Hev, Hfirst. apply in_or_app. right. now left.
    + intros Hin. apply Hnot. apply elem_of_list_to_set. now apply list_elem_of_In.
Qed.

(** A baseline port that is gone in the first two enumerations and back in
    the third is not picked up; the port that shows in the fourth is. *)
Example baseline_port_back_again :
  poll_loop 3 (fun k => match k with
                        | 1 | 2 => ["/dev/ttyS0"]
                        | 4 => ["/dev/ttyS0"; "/dev/ttyUSB0"; "/dev/ttyACM0"]
                        | _ => ["/dev/ttyS0"; "/dev/ttyUSB0"]
                        end)
            0 (list_to_set ["/dev/ttyS0"; "/dev/ttyUSB0"]) 1 = None
  /\ poll_loop 4 (fun k => match k with
                           | 1 | 2 => ["/dev/ttyS0"]
                           | 4 => ["/dev/ttyS0"; "/dev/ttyUSB0"; "/dev/ttyACM0"]
                           | _ => ["/dev/ttyS0"; "/dev/ttyUSB0"]
                           end)
               0 (list_to_set ["/dev/ttyS0"; "/dev/ttyUSB0"]) 1
     = Some ("/dev/ttyACM0",
             [ListPorts; Sleep (1 # 2); ListPorts; Sleep (1 # 2);
              ListPorts; Sleep (1 # 2); ListPorts]).
Proof. split; vm_compute; reflexivity. Qed.


(** ** The scenario of the specification *)

(** [bootloader.bin] (1 KB), [partitions.bin] (2 KB) and [app_v3.bin]
    (500 KB): the application is [app_v3.bin], there is no OTA image, the
    summary says so and the argument list has no [0xd000] entry. *)
Example scenario_run :
  exists o,
    main c5_flasher 2 (sample_env scenario_files "y" None) = Some o
    /\ app_bin (bins_dir c5_flasher (sample_env scenario_files "y" None))
       = Some "/home/op/flasher/bins/app_v3.bin"
    /\ ota_data (bins_dir c5_flasher (sample_env scenario_files "y" None)) = None
    /\ In "OTA Data:     NOT FOUND" (printed (events o))
    /\ esptool_calls (events o)
       = [[ "--chip"; "esp32c5"; "--port"; "/dev/ttyACM0"; "--baud"; "921600";
            "--before"; "default_reset"; "--after"; "hard_reset";
            "write_flash"; "-z";
            "0x2000"; "/home/op/flasher/bins/bootloader.bin";
            "0x8000"; "/home/op/flasher/bins/partitions.bin";
            "0x10000"; "/home/op/flasher/bins/app_v3.bin" ]]
    /\ sleeps (events o) = [1 # 2]
    /\ ended o = Returned.
Proof.
  eexists. split; [vm_compute; reflexivity |].
  repeat split; try (vm_compute; reflexivity).
  vm_compute. tauto.
Qed.

(** The same files with an OTA image, flashed by _c5_flasher.py. *)
Example scenario_with_ota :
  exists o,
    main _c5_flasher 2
      (sample_env (Entry "ota_data_initial.bin" true 8192 :: scenario_files) "y" None)
    = Some o
    /\ esptool_calls (events o)
       = [[ "--chip"; "esp32c5"; "--port"; "/dev/ttyACM0"; "--baud"; "921600";
            "--before"; "default_reset"; "--after"; "hard_reset";
            "--flash_mode"; "qio"; "--flash_freq"; "80m"; "--flash_size"; "4MB";
            "write_flash"; "-z";
            "0x0"; "/home/op/flasher/bootloader.bin";
            "0x8000"; "/home/op/flasher/partitions.bin";
            "0xd000"; "/home/op/flasher/ota_data_initial.bin";
            "0x10000"; "/home/op/flasher/app_v3.bin" ]].
Proof. eexists. split; vm_compute; reflexivity. Qed.

(** Only role files in the directory: no application image, status 1. *)
Example only_role_files :
  exists o,
    main c5_flasher 2
      (sample_env [Entry "bootloader.bin" true 1024; Entry "partitions.bin" true 2048;
                   Entry "ota_data_initial.bin" true 8192] "y" None)
    = Some o
    /\ last (printed (events o)) = Some (no_app_message c5_flasher)
    /\ exit_status o = 1%Z.
Proof. eexists. split; [| split]; vm_compute; reflexivity. Qed.

(** A directory named like an image is no candidate, whatever its size,
    and a hidden file is not listed. *)
Example not_a_candidate :
  app_bin (Directory "/fw" [Entry "backup.bin" false 4096000;
                            Entry ".hidden.bin" true 2000000;
                            Entry "app.bin" true 1000]) = Some "/fw/app.bin".
Proof. vm_compute; reflexivity. Qed.

(** The operator declines: status 0 and no call of esptool. *)
Example declined_run :
  exists o,
    main c5_flasher 2 (sample_env scenario_files "yes" None) = Some o
    /\ last (events o) = Some (Stdout "Aborting.")
    /\ esptool_calls (events o) = []
    /\ exit_status o = 0%Z.
Proof. eexists. split; [| split; [| split]]; vm_compute; reflexivity. Qed.

(** Without the [bins] directory c5_flasher.py stops at once. *)
Example no_bins_directory :
  main c5_flasher 0 (Env "/home/op/flasher" None 80 sample_ports 0 "y" (fun _ => None))
  = Some (Outcome [Stdout (bins_not_found_message "/home/op/flasher/bins")] (Exited 1)).
Proof. reflexivity. Qed.

(** * More about the scripts *)

(** ** What the roles look at *)

Lemma lexists_In (d : directory) (n : string) :
  lexists d n = true <-> In n (map name (listing d)).
Proof.
  unfold lexists. rewrite existsb_exists, in_map_iff. split.
  - intros (en & Hin & E). apply String.eqb_eq in E. eauto.
  - intros (en & E & Hin). exists en. split; [exact Hin |]. now apply String.eqb_eq.
Qed.



(** ** The images handed to esptool *)

Lemma find_file_inv (names : list string) (d : directory) (f : string) :
  find_file names d = Some f ->
  exists n, In n names /\ lexists d n = true /\ f = path_join (dir_path d) n.
Proof.
  rewrite find_file_find.
  destruct (List.find (lexists d) names) as [n|] eqn:E; [| discriminate].
  intros [= <-]. apply find_some in E as [Hin Hex]. eauto.
Qed.

Lemma role_paths_differ (a n m : string) :
  has_slash n = false -> has_slash m = false -> n <> m ->
  path_join a n <> path_join a m.
Proof. intros Hn Hm Hne E. apply Hne. now apply (path_join_inj a). Qed.



(** X3. When the directory (its path without wildcard) holds both names
    of the partition table, [partition-table.bin] is the partition table
    and [partitions.bin], if it is a regular file, is left among the
    candidates for the application image: it is flashed as the application
    when it is larger than every other candidate. *)
Theorem second_partition_name_is_candidate (d : directory) :
  has_magic (dir_path d) = false ->
  lexists d "partition-table.bin" = true ->
  lexists d "partitions.bin" = true ->
  isfile d (path_join (dir_path d) "partitions.bin") = true ->
  partitions d = Some (path_join (dir_path d) "partition-table.bin")
  /\ In (path_join (dir_path d) "partitions.bin") (firmware_bins d)
  /\ app_bin d <> None
  /\ ((forall f, In f (firmware_bins d) -> f <> path_join (dir_path d) "partitions.bin" ->
         (getsize d f < getsize d (path_join (dir_path d) "partitions.bin"))%N) ->
      app_bin d = Some (path_join (dir_path d) "partitions.bin")).
Proof.
  intros _ Hfirst Hsecond Hfile.
  assert (Hp : partitions d = Some (path_join (dir_path d) "partition-table.bin")).
  { unfold partitions. rewrite find_file_find. cbn [List.find]. now rewrite Hfirst. }
  assert (Hcand : In (path_join (dir_path d) "partitions.bin") (firmware_bins d)).
  { apply In_firmware_bins. split; [| split; [| split; [| split]]].
    - apply In_all_bins. apply lexists_In, in_map_iff in Hsecond as (en & E & Hin).
      exists en. unfold entry_path. rewrite E. auto.
    - intros H. apply find_file_inv in H as (n & [<-|[]] & _ & E).
      revert E. apply role_paths_differ; try reflexivity; discriminate.
    - rewrite Hp. intros [= E].
      revert E. apply role_paths_differ; try reflexivity; discriminate.
    - intros H. apply find_file_inv in H as (n & [<-|[]] & _ & E).
      revert E. apply role_paths_differ; try reflexivity; discriminate.
    - exact Hfile. }
  split; [exact Hp | split; [exact Hcand | split]].
  - unfold app_bin. destruct (firmware_bins d); [destruct Hcand | discriminate].
  - intros Hless. unfold app_bin.
    destruct (firmware_bins d) as [|f fs]; [destruct Hcand |].
    f_equal. now apply py_max_unique.
Qed.

(** A partition table under both names next to a small application:
    [partitions.bin], the larger of the two candidates, is flashed as the
    application image. *)
Lemma second_partition_name_is_candidate_witness :
  app_bin (Directory "/fw" both_partition_names) = Some "/fw/partitions.bin".
Proof.
  apply (second_partition_name_is_candidate (Directory "/fw" both_partition_names)
           eq_refl eq_refl eq_refl eq_refl).
  intros f Hin Hne. vm_compute in Hin.
  destruct Hin as [<-|[<-|[]]]; [now destruct Hne | vm_compute; reflexivity].
Defined.

(** ** The summary *)

Lemma length_append (a b : string) :
  String.length (a +:+ b) = String.length a + String.length b.
Proof.
  induction a as [|c a IH]; [reflexivity |].
  rewrite append_cons. cbn [String.length]. now rewrite IH.
Qed.

Lemma path_join_length (a n : string) :
  String.length n <= String.length (path_join a n).
Proof.
  unfold path_join. destruct (String.prefix "/" n); [lia |].
  destruct (_ || _); rewrite !length_append; lia.
Qed.

Lemma found_is_shown (names : list string) (d : directory) (f : string) :
  Forall (fun n => 9 < String.length n) names ->
  find_file names d = Some f ->
  or_NOT_FOUND (find_file names d) = f /\ f <> "NOT FOUND".
Proof.
  intros Hlong Hf.
  assert (Hlen : 9 < String.length f).
  { apply find_file_inv in Hf as (n & Hn & _ & ->).
    rewrite Forall_forall in Hlong. apply list_elem_of_In, Hlong in Hn.
    pose proof (path_join_length (dir_path d) n). lia. }
  rewrite Hf. unfold or_NOT_FOUND, truthy.
  destruct (String.eqb_spec f "") as [->|_]; [cbn in Hlen; lia |].
  split; [reflexivity |]. intros ->. cbn in Hlen. lia.
Qed.

(** The text shown for a role: the path that was found, NOT FOUND when
    there is none. *)
Lemma role_shown (names : list string) (d : directory) :
  Forall (fun n => 9 < String.length n) names ->
  (or_NOT_FOUND (find_file names d) = "NOT FOUND" <-> find_file names d = None)
  /\ (forall f, find_file names d = Some f -> or_NOT_FOUND (find_file names d) = f).
Proof.
  intros Hlong. split.
  - destruct (find_file names d) as [f|] eqn:E; [| easy].
    destruct (found_is_shown names d f Hlong E) as [Hshown Hne].
    rewrite E in Hshown. rewrite Hshown. split; [contradiction | discriminate].
  - intros f E. now apply found_is_shown.
Qed.

(** With a candidate for the application image, the events after the
    detection start with the message of the detection and the summary. *)
Lemma after_detection_summary (v : script) (e : env) (port a : string) :
  app_bin (bins_dir v e) = Some a ->
  exists rest,
    events (after_detection v e port)
    = Stdout (detected_message port)
      :: summary (bootloader (bins_dir v e)) (partitions (bins_dir v e))
                 (ota_data (bins_dir v e)) a
      ++ rest.
Proof.
  intros Ha. unfold after_detection. rewrite Ha.
  destruct (bootloader (bins_dir v e)) as [b|], (partitions (bins_dir v e)) as [q|];
    try (eexists; cbn [events app]; rewrite <- ?app_assoc; reflexivity).
  destruct (truthy (Some b) && truthy (Some q));
    [| eexists; cbn [events app]; rewrite <- ?app_assoc; reflexivity].
  destruct (negb _); eexists; cbn [events app]; rewrite <- ?app_assoc; reflexivity.
Qed.

(** X4. The summary a run prints tells the truth about the three roles.
    Every run that gets to an application image prints, right after the
    message of the detection, the four lines of the summary: the line of
    the bootloader, of the partition table and of the OTA data reads
    NOT FOUND exactly when no file was found for the role and shows the
    path of the file that was found otherwise; the fourth line shows the
    application image. *)
Theorem summary_tells_what_was_found
    (v : script) (fuel : nat) (e : env) (o : outcome) (a : string) :
  main v fuel e = Some o ->
  app_bin (bins_dir v e) = Some a ->
  exists port lb lp lo later,
    printed (events o)
    = printed (startup_events v e)
      ++ [ waiting_message;
           detected_message port;
           Fore_CYAN +:+ NL +:+ "Bootloader:   " +:+ lb;
           "Partitions:   " +:+ lp;
           "OTA Data:     " +:+ lo;
           "App (main):   " +:+ a +:+ NL +:+ Style_RESET_ALL ]
      ++ later
    /\ (lb = "NOT FOUND" <-> bootloader (bins_dir v e) = None)
    /\ (forall b, bootloader (bins_dir v e) = Some b -> lb = b)
    /\ (lp = "NOT FOUND" <-> partitions (bins_dir v e) = None)
    /\ (forall q, partitions (bins_dir v e) = Some q -> lp = q)
    /\ (lo = "NOT FOUND" <-> ota_data (bins_dir v e) = None)
    /\ (forall ot, ota_data (bins_dir v e) = Some ot -> lo = ot).
Proof.
  intros Hmain Ha.
  pose proof (app_bin_needs_directory v e a Ha) as Hdir.
  destruct (main_after_detection v fuel e o Hmain (fun _ => Hdir))
    as (port & pre & Hev & _ & _ & _ & _ & Hpre).
  destruct (after_detection_summary v e port a Ha) as [rest Hrest].
  exists port, (or_NOT_FOUND (bootloader (bins_dir v e))),
    (or_NOT_FOUND (partitions (bins_dir v e))),
    (or_NOT_FOUND (ota_data (bins_dir v e))), (printed rest).
  split.
  - rewrite Hev, Hrest, printed_app, Hpre.
    change (Stdout (detected_message port) :: summary _ _ _ a ++ rest)
      with ((Stdout (detected_message port) :: summary
               (bootloader (bins_dir v e)) (partitions (bins_dir v e))
               (ota_data (bins_dir v e)) a) ++ rest).
    rewrite printed_app, <- !app_assoc. reflexivity.
  - unfold bootloader, partitions, ota_data.
    destruct (role_shown ["bootloader.bin"] (bins_dir v e)) as [B1 B2];
      [repeat constructor |].
    destruct (role_shown ["partition-table.bin"; "partitions.bin"] (bins_dir v e))
      as [P1 P2]; [repeat constructor |].
    destruct (role_shown ["ota_data_initial.bin"] (bins_dir v e)) as [O1 O2];
      [repeat constructor |].
    auto 10.
Qed.

(** The scenario of the specification run by _c5_flasher.py: the two paths
    that were found, and NOT FOUND for the OTA data. *)
Lemma summary_tells_what_was_found_witness :
  exists o,
    main _c5_flasher 2 (sample_env scenario_files "y" None) = Some o
    /\ exists port later,
         printed (events o)
         = [ waiting_message;
             detected_message port;
             Fore_CYAN +:+ NL +:+ "Bootloader:   /home/op/flasher/bootloader.bin";
             "Partitions:   /home/op/flasher/partitions.bin";
             "OTA Data:     NOT FOUND";
             "App (main):   /home/op/flasher/app_v3.bin" +:+ NL +:+ Style_RESET_ALL ]
           ++ later.
Proof.
  eexists. split; [vm_compute; reflexivity |].
  match goal with
  | |- exists _ _, printed (events ?o) = _ =>
      assert (Hmain : main _c5_flasher 2 (sample_env scenario_files "y" None) = Some o)
        by (vm_compute; reflexivity)
  end.
  destruct (summary_tells_what_was_found _ _ _ _ "/home/op/flasher/app_v3.bin"
              Hmain eq_refl)
    as (port & lb & lp & lo & later & Hprinted & _ & Hb & _ & Hp & Ho & _).
  exists port, later.
  rewrite Hprinted, (Hb _ eq_refl), (Hp _ eq_refl), (proj2 Ho eq_refl).
  reflexivity.
Defined.

(** ** What happens before and after the wait *)

(** X5. The only thing either script checks before it waits for the device
    is the [bins] directory of c5_flasher.py: without it that script stops
    at once, with status 1 and without a single port enumeration.  Past
    that check nothing about the files is looked at or reported before a
    new port appears: as long as every enumeration shows ports of the first
    one only, the run is still waiting, whatever the directory holds. *)
Theorem files_checked_after_the_wait (v : script) (e : env) :
  (scanned e = None ->
   forall fuel,
     main c5_flasher fuel e
     = Some (Outcome [Stdout (bins_not_found_message (path_join (dirname e) "bins"))]
                     (Exited 1)))
  /\ ((v = c5_flasher -> scanned e <> None) ->
      (forall k x, In x (comports e (1 + k)) -> In x (comports e 0)) ->
      forall fuel, main v fuel e = None).
Proof.
  split.
  - intros Hnone fuel. unfold main, startup. now rewrite Hnone.
  - intros Hdir Hold fuel. unfold main, find_new_serial_port.
    assert (Hwait : poll_loop fuel (comports e) (pop_choice e)
                      (list_to_set (comports e 0)) 1 = None).
    { apply poll_loop_waits. intros i _. apply new_ports_at_baseline.
      intros x Hx. apply elem_of_list_to_set, list_elem_of_In. now apply (Hold i). }
    rewrite Hwait. unfold startup. destruct v; [| reflexivity].
    destruct (scanned e); [reflexivity |]. now destruct Hdir.
Qed.

(** An empty directory and a device that never shows up: no report. *)
Lemma files_checked_after_the_wait_witness :
  main _c5_flasher 1000 (Env "/home/op/flasher" (Some []) 80 (fun _ => ["/dev/ttyS0"])
                             0 "y" (fun _ => None)) = None.
Proof.
  apply (proj2 (files_checked_after_the_wait _ _)); [discriminate |].
  intros k x H. exact H.
Defined.

Lemma flash_events (e : env) (args : list string) :
  exists tail,
    events (flash e args) = Stdout flashing_message :: Esptool args :: tail
    /\ length tail <= 1
    /\ esptool_calls tail = [] /\ prompts tail = [] /\ sleeps tail = []
    /\ ~ In ListPorts tail.
Proof.
  unfold flash. destruct (esptool_main e args) as [exc|].
  - destruct (isinstance_Exception exc).
    + eexists. split; [reflexivity |]. cbn. intuition (try discriminate; lia).
    + exists []. cbn. intuition lia.
  - eexists. split; [reflexivity |]. cbn. intuition (try discriminate; lia).
Qed.

(** A run that calls esptool, in full. *)
Lemma main_flash_inv (v : script) (fuel : nat) (e : env) (o : outcome)
    (args : list string) :
  main v fuel e = Some o ->
  In args (esptool_calls (events o)) ->
  exists port n b p a,
    new_ports_at (comports e) (list_to_set (comports e 0)) (1 + n) ≠ ∅
    /\ port = set_pop (pop_choice e)
                (new_ports_at (comports e) (list_to_set (comports e 0)) (1 + n))
    /\ bootloader (bins_dir v e) = Some b
    /\ partitions (bins_dir v e) = Some p
    /\ app_bin (bins_dir v e) = Some a
    /\ confirmed (typed e) = true
    /\ args = esptool_args v port b p (ota_data (bins_dir v e)) a
    /\ events o
       = (startup_events v e ++ ListPorts :: Stdout waiting_message
          :: idle_iterations n ++ [ListPorts])
         ++ shown v e port a ++ [Input confirm_prompt] ++ events (flash e args).
Proof.
  intros Hmain Hin.
  destruct (main_inv v fuel e o Hmain) as [(-> & Hnone & ->)|(port & ev & _ & Hloop & Hev & _)].
  { destruct Hin. }
  destruct (poll_loop_returns _ _ _ _ _ _ _ Hloop) as (n & _ & _ & Hnew & Hport & ->).
  destruct (idle_iterations_silent n) as (_ & Hsilent & _).
  assert (Hpre : esptool_calls (startup_events v e ++ ListPorts :: Stdout waiting_message
                                :: idle_iterations n ++ [ListPorts]) = []).
  { change (ListPorts :: Stdout waiting_message :: idle_iterations n ++ [ListPorts])
      with ([ListPorts; Stdout waiting_message] ++ idle_iterations n ++ [ListPorts]).
    rewrite !esptool_calls_app, Hsilent. now destruct v. }
  assert (Hev' : events o
                 = (startup_events v e ++ ListPorts :: Stdout waiting_message
                    :: idle_iterations n ++ [ListPorts])
                   ++ events (after_detection v e port)).
  { rewrite Hev. rewrite <- ?app_assoc. cbn [app]. rewrite <- ?app_assoc. reflexivity. }
  clear Hev. rewrite Hev', esptool_calls_app, Hpre in Hin. cbn [app] in Hin.
  destruct (app_bin (bins_dir v e)) as [a|] eqn:Ha.
  2: { rewrite (after_detection_no_app v e port Ha) in Hin. destruct Hin. }
  destruct (bootloader (bins_dir v e)) as [b|] eqn:Hb.
  2: { rewrite (after_detection_missing v e port a Ha (or_introl Hb)) in Hin.
       cbn [events] in Hin. rewrite esptool_calls_app, esptool_calls_shown in Hin.
       destruct Hin. }
  destruct (partitions (bins_dir v e)) as [p|] eqn:Hp.
  2: { rewrite (after_detection_missing v e port a Ha (or_intror Hp)) in Hin.
       cbn [events] in Hin. rewrite esptool_calls_app, esptool_calls_shown in Hin.
       destruct Hin. }
  destruct (confirmed (typed e)) eqn:Hc.
  2: { rewrite (after_detection_decline v e port a b p Ha Hb Hp Hc) in Hin.
       cbn [events] in Hin. rewrite esptool_calls_app, esptool_calls_shown in Hin.
       destruct Hin. }
  rewrite (after_detection_flash v e port a b p Ha Hb Hp Hc) in Hin, Hev'.
  cbn [events] in Hin, Hev'.
  change (Input confirm_prompt :: ?l) with ([Input confirm_prompt] ++ l) in Hin, Hev'.
  rewrite !esptool_calls_app, esptool_calls_shown, esptool_calls_flash in Hin.
  destruct Hin as [<-|[]].
  exists port, n, b, p, a. auto 10.
Qed.

(** X6. The port handed to esptool after [--port] is the one the run
    reported as detected; some enumeration after the first showed it and
    the first one did not. *)
Theorem flashed_port_is_new (v : script) (fuel : nat) (e : env) (o : outcome)
    (args : list string) :
  main v fuel e = Some o ->
  In args (esptool_calls (events o)) ->
  exists port k,
    args !! 2 = Some "--port"
    /\ args !! 3 = Some port
    /\ 1 <= k
    /\ In port (comports e k)
    /\ ~ In port (comports e 0)
    /\ In (Stdout (detected_message port)) (events o).
Proof.
  intros Hmain Hin.
  destruct (main_flash_inv v fuel e o args Hmain Hin)
    as (port & n & b & p & a & Hnew & Hport & _ & _ & _ & _ & -> & Hev).
  pose proof (set_pop_elem_of (pop_choice e) _ Hnew) as Hel.
  rewrite <- Hport in Hel. unfold new_ports_at in Hel.
  apply elem_of_difference in Hel as [Hseen Hbase].
  exists port, (1 + n). split; [now destruct v | split; [now destruct v |]].
  split; [lia | split; [| split]].
  - apply list_elem_of_In. now apply elem_of_list_to_set in Hseen.
  - intros H. apply Hbase, elem_of_list_to_set, list_elem_of_In, H.
  - rewrite Hev. apply in_or_app. right. apply in_or_app. left. now left.
Qed.

(** The scenario of the specification: the port of the second poll. *)
Lemma flashed_port_is_new_witness :
  exists k, 1 <= k /\ In "/dev/ttyACM0" (sample_ports k)
            /\ ~ In "/dev/ttyACM0" (sample_ports 0).
Proof.
  destruct (flashed_port_is_new c5_flasher 2 (sample_env scenario_files "y" None) _
              (spec_flash_arguments c5_flasher "/dev/ttyACM0"
                 "/home/op/flasher/bins/bootloader.bin"
                 "/home/op/flasher/bins/partitions.bin" None
                 "/home/op/flasher/bins/app_v3.bin")
              eq_refl (or_introl eq_refl))
    as (port & k & _ & Hport & Hk & Hseen & Hbase & _).
  injection Hport as <-. exists k. auto.
Defined.

Lemma split_at_the_call (before after pre post : list event) (a a' : list string) :
  esptool_calls before = [] ->
  esptool_calls after = [] ->
  pre ++ Esptool a' :: post = before ++ Esptool a :: after ->
  pre = before /\ a' = a /\ post = after.
Proof.
  intros Hbefore Hafter. revert pre.
  induction before as [|x before IH]; intros pre E.
  - destruct pre as [|y pre]; cbn [app] in E.
    + injection E as -> ->. auto.
    + injection E as -> E. exfalso. rewrite <- E in Hafter.
      rewrite esptool_calls_app in Hafter. cbn in Hafter.
      now apply app_eq_nil in Hafter as [_ Hafter].
  - destruct pre as [|y pre]; cbn [app] in E.
    + injection E as <- _. discriminate Hbefore.
    + injection E as -> E.
      assert (Hb : esptool_calls before = []).
      { change (x :: before) with ([x] ++ before) in Hbefore.
        rewrite esptool_calls_app in Hbefore.
        now apply app_eq_nil in Hbefore as [_ Hbefore]. }
      destruct (IH Hb pre E) as (-> & -> & ->). auto.
Qed.

(** X7. Wherever a run calls esptool, the operator was asked exactly once
    before it and had confirmed, the line printed right before the call is
    the flashing message, esptool had not been called before, and after
    the call the run does nothing but print at most one line: it does not
    ask, call esptool, enumerate ports or sleep again. *)
Theorem asked_before_flashing (v : script) (fuel : nat) (e : env) (o : outcome)
    (pre post : list event) (args : list string) :
  main v fuel e = Some o ->
  events o = pre ++ Esptool args :: post ->
  prompts pre = [confirm_prompt]
  /\ confirmed (typed e) = true
  /\ last pre = Some (Stdout flashing_message)
  /\ esptool_calls pre = []
  /\ length post <= 1
  /\ esptool_calls post = [] /\ prompts post = [] /\ sleeps post = []
  /\ ~ In ListPorts post.
Proof.
  intros Hmain Hsplit.
  assert (Hin : In args (esptool_calls (events o))).
  { rewrite Hsplit, esptool_calls_app. apply in_or_app. right. now left. }
  destruct (main_flash_inv v fuel e o args Hmain Hin)
    as (port & n & b & p & a & _ & _ & _ & _ & _ & Hc & _ & Hev).
  destruct (flash_events e args) as (tail & Hflash & Hlen & Hcalls & Hprompts & Hsleeps & Hlist).
  destruct (idle_iterations_silent n) as (_ & Hidle_calls & Hidle_prompts).
  rewrite Hflash in Hev.
  set (before := (startup_events v e ++ ListPorts :: Stdout waiting_message
                  :: idle_iterations n ++ [ListPorts])
                 ++ shown v e port a ++ [Input confirm_prompt]
                 ++ [Stdout flashing_message]).
  assert (Hev' : events o = before ++ Esptool args :: tail).
  { rewrite Hev. unfold before. rewrite <- ?app_assoc. reflexivity. }
  assert (Hbefore_calls : esptool_calls before = []).
  { unfold before.
    change (ListPorts :: Stdout waiting_message :: idle_iterations n ++ [ListPorts])
      with ([ListPorts; Stdout waiting_message] ++ idle_iterations n ++ [ListPorts]).
    rewrite !esptool_calls_app, Hidle_calls, esptool_calls_shown. now destruct v. }
  rewrite Hev' in Hsplit. symmetry in Hsplit.
  destruct (split_at_the_call before tail pre post args args Hbefore_calls Hcalls Hsplit)
    as (-> & _ & ->).
  split; [| split; [exact Hc | split; [| auto 10]]].
  - unfold before.
    change (ListPorts :: Stdout waiting_message :: idle_iterations n ++ [ListPorts])
      with ([ListPorts; Stdout waiting_message] ++ idle_iterations n ++ [ListPorts]).
    rewrite !prompts_app, Hidle_prompts, prompts_shown. now destruct v.
  - unfold before. rewrite !app_assoc. apply last_snoc.
Qed.

(** The scenario of the specification, split at the call, which is the
    fourteenth event of the run. *)
Lemma asked_before_flashing_witness :
  exists o,
    main c5_flasher 2 (sample_env scenario_files "y" None) = Some o
    /\ prompts (take 13 (events o)) = [confirm_prompt]
    /\ length (drop 14 (events o)) <= 1.
Proof.
  eexists. split; [vm_compute; reflexivity |].
  match goal with
  | |- prompts (take 13 (events ?o)) = _ /\ _ =>
      assert (Hmain : main c5_flasher 2 (sample_env scenario_files "y" None) = Some o)
        by (vm_compute; reflexivity);
      assert (Hsplit : events o
                       = take 13 (events o)
                         ++ Esptool (spec_flash_arguments c5_flasher "/dev/ttyACM0"
                                       "/home/op/flasher/bins/bootloader.bin"
                                       "/home/op/flasher/bins/partitions.bin" None
                                       "/home/op/flasher/bins/app_v3.bin")
                            :: drop 14 (events o))
        by reflexivity
  end.
  destruct (asked_before_flashing _ _ _ _ _ _ _ Hmain Hsplit)
    as (Hprompts & _ & _ & _ & Hlen & _).
  split; [exact Hprompts | exact Hlen].
Defined.

(** ** The requirement installer *)

Lemma check_calls_app (xs ys : list setup_event) :
  check_calls (xs ++ ys) = check_calls xs ++ check_calls ys.
Proof. apply flat_map_app. Qed.





(** A host without [esptool] on which [pip] fails: the installer stops at
    [esptool] and never gets to [colorama]. *)
Example installer_stops_at_failure :
  ensure_requirements
    (Host "/usr/bin/python3" (fun _ m => String.eqb m "pyserial") (fun _ _ => 1%Z))
    (Interpreter ∅ [])
  = ([ Announced "Installing missing package: esptool";
       CheckCall ["/usr/bin/python3"; "-m"; "pip"; "install"; "--upgrade"; "esptool"] ],
     CalledProcessError
       ["/usr/bin/python3"; "-m"; "pip"; "install"; "--upgrade"; "esptool"] 1).
Proof. vm_compute. reflexivity. Qed.

Lemma can_import_absent (h : host) (st : interpreter) (m : string) :
  sys_modules st !! m = None -> can_import h st m = importable h (calls st) m.
Proof. unfold can_import. now intros ->. Qed.

Lemma can_import_loaded (h : host) (st : interpreter) (m : string) :
  sys_modules st !! m = Some Module -> can_import h st m = true.
Proof. unfold can_import. now intros ->. Qed.

(** c5_flasher.py from its first line, case by case. *)
Lemma run_script_c5_flasher (h : host) (fuel : nat) (e : env) :
  run_script c5_flasher h fuel e =
    if negb (importable h [] "serial.tools.list_ports")
    then ([], ImportError "serial.tools.list_ports")
    else if negb (importable h [] "esptool") then ([], ImportError "esptool")
    else if negb (importable h [] "colorama") then ([], ImportError "colorama")
    else if importable h [] "pyserial" then ([], Main (main c5_flasher fuel e))
    else if Z.eqb (check_call_status h [] (pip_argv h "pyserial")) 0
         then (install_events h "pyserial", Main (main c5_flasher fuel e))
         else (install_events h "pyserial",
               SetupFailed (pip_argv h "pyserial")
                 (check_call_status h [] (pip_argv h "pyserial"))).
Proof.
  unfold run_script, imports, ensure_requirements, REQUIRED_PACKAGES.
  cbn [run_imports].
  rewrite can_import_absent by (vm_compute; reflexivity). cbn [calls].
  destruct (importable h [] "serial.tools.list_ports"); [| reflexivity].
  rewrite can_import_absent by (vm_compute; reflexivity). cbn [calls].
  destruct (importable h [] "esptool"); [| reflexivity].
  rewrite can_import_absent by (vm_compute; reflexivity). cbn [calls].
  destruct (importable h [] "colorama"); [| reflexivity].
  cbn [ensure_packages negb]. unfold ensure_package at 1.
  change (import_name "pyserial") with "pyserial".
  rewrite can_import_absent by (vm_compute; reflexivity). cbn [calls].
  destruct (importable h [] "pyserial").
  - unfold ensure_package.
    change (import_name "esptool") with "esptool".
    rewrite can_import_loaded by (vm_compute; reflexivity).
    change (import_name "colorama") with "colorama".
    rewrite can_import_loaded by (vm_compute; reflexivity).
    reflexivity.
  - destruct (Z.eqb (check_call_status h [] (pip_argv h "pyserial")) 0);
      [| reflexivity].
    unfold ensure_package.
    change (import_name "esptool") with "esptool".
    rewrite can_import_loaded by (vm_compute; reflexivity).
    change (import_name "colorama") with "colorama".
    rewrite can_import_loaded by (vm_compute; reflexivity).
    reflexivity.
Qed.

(** X9. c5_flasher.py run as a program.  Its imports come before the
    installer, so when [serial.tools.list_ports], [esptool] or [colorama]
    cannot be imported the script ends with [ImportError] and the
    installer does not run.  The installer therefore never installs
    [esptool] or [colorama]: the one call it can make is
    [pip install --upgrade pyserial], and it makes it exactly when the
    three imports succeeded and no module called [pyserial] can be
    imported.  [main] is called exactly when the three imports succeeded
    and either that module was found or [pip] exited with status 0. *)
Theorem installer_only_installs_pyserial (h : host) (fuel : nat) (e : env) :
  (forall argv,
     In argv (check_calls (fst (run_script c5_flasher h fuel e))) ->
     argv = [sys_executable h; "-m"; "pip"; "install"; "--upgrade"; "pyserial"])
  /\ length (check_calls (fst (run_script c5_flasher h fuel e))) <= 1
  /\ (forall m,
        In m ["serial.tools.list_ports"; "esptool"; "colorama"] ->
        importable h [] m = false ->
        fst (run_script c5_flasher h fuel e) = []
        /\ exists m', snd (run_script c5_flasher h fuel e) = ImportError m')
  /\ (check_calls (fst (run_script c5_flasher h fuel e)) <> [] <->
      importable h [] "serial.tools.list_ports" = true
      /\ importable h [] "esptool" = true
      /\ importable h [] "colorama" = true
      /\ importable h [] "pyserial" = false)
  /\ (snd (run_script c5_flasher h fuel e) = Main (main c5_flasher fuel e) <->
      importable h [] "serial.tools.list_ports" = true
      /\ importable h [] "esptool" = true
      /\ importable h [] "colorama" = true
      /\ (importable h [] "pyserial" = true
          \/ check_call_status h [] (pip_argv h "pyserial") = 0%Z)).
Proof.
  rewrite run_script_c5_flasher.
  destruct (importable h [] "serial.tools.list_ports") eqn:E1; cbn [negb].
  2: { repeat split; cbn; try tauto; try lia; try discriminate; eauto;
       intros; intuition discriminate. }
  destruct (importable h [] "esptool") eqn:E2; cbn [negb].
  2: { repeat split; cbn; try tauto; try lia; try discriminate; eauto;
       intros; intuition discriminate. }
  destruct (importable h [] "colorama") eqn:E3; cbn [negb].
  2: { repeat split; cbn; try tauto; try lia; try discriminate; eauto;
       intros; intuition discriminate. }
  assert (Himp : forall m,
            In m ["serial.tools.list_ports"; "esptool"; "colorama"] ->
            importable h [] m = false -> False).
  { intros m [<-|[<-|[<-|[]]]]; congruence. }
  destruct (importable h [] "pyserial") eqn:E4.
  { repeat split; cbn; try tauto; try lia; auto; intros; try contradiction;
      try (exfalso; eapply Himp; eassumption); intuition discriminate. }
  destruct (Z.eqb_spec (check_call_status h [] (pip_argv h "pyserial")) 0) as [E5|E5].
  - repeat split; cbn; try lia; auto; intros;
      try (exfalso; eapply Himp; eassumption); try discriminate;
      intuition.
  - repeat split; cbn; try lia; auto; intros;
      try (exfalso; eapply Himp; eassumption); try discriminate;
      try match goal with
          | H : _ = ?a \/ False |- ?a = _ => destruct H as [<-|[]]; reflexivity
          end;
      intuition congruence.
Qed.

(** On a host with [serial], [esptool] and [colorama] installed, where no
    module is called [pyserial], every start of c5_flasher.py runs
    [pip install --upgrade pyserial] before [main]. *)
Example pyserial_installed_again :
  run_script c5_flasher sample_host 0
    (Env "/home/op/flasher" None 80 sample_ports 0 "y" (fun _ => None))
  = ([ Announced "Installing missing package: pyserial";
       CheckCall ["/usr/bin/python3"; "-m"; "pip"; "install"; "--upgrade"; "pyserial"] ],
     Main (Some (Outcome [Stdout (bins_not_found_message "/home/op/flasher/bins")]
                         (Exited 1)))).
Proof. reflexivity. Qed.

(** ** Sleeping *)

Lemma sleeps_app (xs ys : list event) : sleeps (xs ++ ys) = sleeps xs ++ sleeps ys.
Proof. apply flat_map_app. Qed.

Lemma sleeps_after_detection (v : script) (e : env) (port : string) :
  sleeps (events (after_detection v e port)) = [].
Proof.
  destruct (app_bin (bins_dir v e)) as [a|] eqn:Ha.
  2: { now rewrite (after_detection_no_app v e port Ha). }
  destruct (bootloader (bins_dir v e)) as [b|] eqn:Hb.
  2: { now rewrite (after_detection_missing v e port a Ha (or_introl Hb)). }
  destruct (partitions (bins_dir v e)) as [p|] eqn:Hp.
  2: { now rewrite (after_detection_missing v e port a Ha (or_intror Hp)). }
  destruct (confirmed (typed e)) eqn:Hc.
  - rewrite (after_detection_flash v e port a b p Ha Hb Hp Hc). cbn [events].
    destruct (flash_events e (esptool_args v port b p (ota_data (bins_dir v e)) a))
      as (tail & -> & _ & _ & _ & Htail & _).
    change (Input confirm_prompt :: Stdout flashing_message :: Esptool ?x :: tail)
      with ([Input confirm_prompt; Stdout flashing_message; Esptool x] ++ tail).
    now rewrite !sleeps_app, Htail.
  - now rewrite (after_detection_decline v e port a b p Ha Hb Hp Hc).
Qed.

(** X10. A run ends as soon as an enumeration shows a port the first one
    did not have, and it sleeps only while it waits: if the first [n]
    polls show nothing new and the next one does, the run ends, whatever
    the files and the operator's answer, having slept exactly [n] times
    for half a second, and its outcome does not depend on how many more
    iterations the loop would have been given. *)
Theorem run_ends_at_first_new_port (v : script) (e : env) (n : nat) :
  (v = c5_flasher -> scanned e <> None) ->
  (forall i, i < n ->
     new_ports_at (comports e) (list_to_set (comports e 0)) (1 + i) = ∅) ->
  new_ports_at (comports e) (list_to_set (comports e 0)) (1 + n) ≠ ∅ ->
  exists o,
    (forall fuel, n < fuel -> main v fuel e = Some o)
    /\ (forall fuel, fuel <= n -> main v fuel e = None)
    /\ sleeps (events o) = replicate n (1 # 2).
Proof.
  intros Hdir Hidle Hnew.
  set (port := set_pop (pop_choice e)
                 (new_ports_at (comports e) (list_to_set (comports e 0)) (1 + n))).
  exists (Outcome (startup_events v e ++ ListPorts
                   :: (Stdout waiting_message :: idle_iterations n ++ [ListPorts])
                   ++ events (after_detection v e port))
                  (ended (after_detection v e port))).
  assert (Hstart : startup v e = inr (startup_events v e)).
  { unfold startup, startup_events. destruct v; [| reflexivity].
    destruct (scanned e); [reflexivity |]. now destruct Hdir. }
  split; [| split].
  - intros fuel Hfuel. unfold main, find_new_serial_port. rewrite Hstart.
    now rewrite (poll_loop_finds (comports e) (pop_choice e) _ n fuel 1 Hidle Hnew Hfuel).
  - intros fuel Hfuel. unfold main, find_new_serial_port. rewrite Hstart.
    rewrite poll_loop_waits; [reflexivity |].
    intros i Hi. apply Hidle. lia.
  - cbn [events].
    change (ListPorts :: (Stdout waiting_message :: idle_iterations n ++ [ListPorts])
            ++ events (after_detection v e port))
      with ([ListPorts; Stdout waiting_message]
            ++ (idle_iterations n ++ [ListPorts])
            ++ events (after_detection v e port)).
    rewrite (sleeps_app (startup_events v e)), (sleeps_app [_; _]),
      (sleeps_app (idle_iterations n ++ [ListPorts])),
      sleeps_after_detection, sleeps_idle_iterations.
    rewrite app_nil_r. now destruct v.
Qed.

(** The scenario of the specification: one idle poll, one sleep. *)
Lemma run_ends_at_first_new_port_witness :
  exists o,
    main c5_flasher 2 (sample_env scenario_files "n" None) = Some o
    /\ main c5_flasher 1 (sample_env scenario_files "n" None) = None
    /\ sleeps (events o) = [1 # 2].
Proof.
  destruct (run_ends_at_first_new_port c5_flasher (sample_env scenario_files "n" None) 1)
    as (o & Hends & Hwaits & Hsleeps).
  - discriminate.
  - intros [|i] Hi; [vm_compute; reflexivity | lia].
  - vm_compute. discriminate.
  - exists o. split; [apply Hends; lia | split; [apply Hwaits; lia | exact Hsleeps]].
Defined.
